(** * onix-wire: the wire-transfer submit endpoint

    A shallow embedding of [src/api/submit.js]: the amount formatter [fmt],
    the PDF letter renderer [generatePDF] with its table layout and manual
    pagination, and the HTTP [handler] that validates the request, renders
    the letter and hands it to the mail channel.

    The code runs on a JavaScript engine and calls three libraries that are
    not part of the repository: [Intl.NumberFormat], the [pdfkit] document
    object and the [resend] mail client.  Their calls are recorded (pdfkit,
    resend) or taken from a [Runtime] record (number printing and
    formatting); what they answer is an input of the model. *)

From Stdlib Require Import ZArith Ascii String List Lia.
From Stdlib Require Import Floats.SpecFloat.
From stdpp Require Import base option list strings gmap pretty.

Local Open Scope Z_scope.

(** ** JavaScript data *)

Module JS.

(** A JavaScript Number is an IEEE 754 binary64 value. *)
Definition number := spec_float.

Definition prec : Z := 53.
Definition emax : Z := 1024.

(** The Number nearest to an integer (exact below 2^53). *)
Definition of_Z (z : Z) : number := binary_normalize prec emax z 0 false.

Definition NaN : number := S754_nan.

(** [a + b], [a / b] and [a > b] on Numbers. *)
Definition add (a b : number) : number := SFadd prec emax a b.
Definition div (a b : number) : number := SFdiv prec emax a b.
Definition gt (a b : number) : bool := SFltb b a.

(** The primitive values a flat JSON record can hold, and [undefined] for a
    key that is absent. *)
Inductive value :=
| Undefined
| Null
| Boolean (b : bool)
| Num (n : number)
| Str (s : string).

(** [ToBoolean]: what [!v] and [v || w] test. *)
Definition ToBoolean (v : value) : bool :=
  match v with
  | Undefined | Null => false
  | Boolean b => b
  | Num (S754_zero _) | Num S754_nan => false
  | Num _ => true
  | Str s => negb (String.eqb s "")
  end.

(** A thrown value: an [Error] object with its [name] and [message]. *)
Record exn := Exn { name : string; message : string }.

(** The outcome of a promise, as [await] sees it. *)
Inductive settled (A : Type) :=
| Fulfilled (a : A)
| Rejected (e : exn)
| Pending.
Arguments Fulfilled {A} a.
Arguments Rejected {A} e.
Arguments Pending {A}.

(** The line feed character and [s.split('\n')].  Strings are kept as the
    bytes of their UTF-8 encoding; byte 10 occurs in it exactly where the
    JavaScript string has a line feed. *)
Definition LF : ascii := "010"%char.
Definition nl : string := String.String LF "".

Fixpoint split (sep : ascii) (s : string) : list string :=
  match s with
  | EmptyString => [EmptyString]
  | String.String c s' =>
      if Ascii.eqb c sep then EmptyString :: split sep s'
      else match split sep s' with
           | l :: ls => String.String c l :: ls
           | [] => [String.String c EmptyString]
           end
  end.

(** The number of occurrences of a character, counted without splitting. *)
Fixpoint occurrences (sep : ascii) (s : string) : nat :=
  match s with
  | EmptyString => O
  | String.String c s' =>
      if Ascii.eqb c sep then S (occurrences sep s') else occurrences sep s'
  end.

(** [xs.join(sep)] on strings. *)
Fixpoint join (sep : string) (xs : list string) : string :=
  match xs with
  | [] => ""
  | [x] => x
  | x :: rest => x +:+ sep +:+ join sep rest
  end.

End JS.

Import JS.

(** What the engine supplies: [Number::toString] (the printing of a Number in
    [+] and in template literals), and the [format] method of
    [new Intl.NumberFormat('es-ES', {minimumFractionDigits: 2,
    maximumFractionDigits: 2})], whose separators and grouping come from the
    engine's locale data. *)
Record Runtime := {
  Number_toString : number -> string;
  NumberFormat_format : value -> string
}.

(** ** The document object

    Every call that [generatePDF] makes on the pdfkit document is recorded,
    in order, with its arguments.  What pdfkit paints for a call (text
    wrapping, its own page breaks for flowing text) is pdfkit's business and
    is not modelled.  A call is taken to return normally: pdfkit reports its
    failures as [error] events of the document stream. *)

Record text_options := {
  align : option string;
  lineGap : option number;
  width : option number
}.

Inductive call :=
| NewPDFDocument (size : string) (margin : number)
| On (event : string)
| Font (face : string)
| FontSize (pt : number)
| Text (t : value) (pos : option (number * number)) (o : text_options)
| MoveDown (lines : option number)
| Rect (x y w h : number)
| Stroke
| AddPage
| SetY (y : number)
| DocEnd.

(** What the document stream emits while it is consumed. *)
Inductive doc_event :=
| Data (chunk : list Byte.byte)
| EndEvent
| ErrorEvent (e : exn).

(** Synchronous code that calls the document and may throw: the calls made so
    far are kept when it throws. *)
Inductive result (A : Type) :=
| Ok (a : A)
| Throw (e : exn).
Arguments Ok {A} a.
Arguments Throw {A} e.

Definition M (A : Type) : Type := list call -> result A * list call.

Definition ret {A} (a : A) : M A := fun tr => (Ok a, tr).
Definition throw {A} (e : exn) : M A := fun tr => (Throw e, tr).
Definition bind {A B} (m : M A) (k : A -> M B) : M B :=
  fun tr => match m tr with
            | (Ok a, tr') => k a tr'
            | (Throw e, tr') => (Throw e, tr')
            end.
Definition emit (c : call) : M unit := fun tr => (Ok tt, tr ++ [c]).

#[global] Instance M_ret : MRet M := @ret.
#[global] Instance M_bind : MBind M := fun A B k m => bind m k.

(** A [forEach] whose body updates one captured local variable: the variable
    is passed from one iteration to the next. *)
Fixpoint forEach {A S : Type} (body : S -> A -> M S) (xs : list A) (s : S) : M S :=
  match xs with
  | [] => ret s
  | x :: rest => s' ← body s x; forEach body rest s'
  end.

(** ** The renderer: [fmt] and [generatePDF] *)

Section Renderer.

Variable rt : Runtime.

(** [ToString]: what string concatenation and template literals apply to an
    operand. *)
Definition ToString (v : value) : string :=
  match v with
  | Undefined => "undefined"
  | Null => "null"
  | Boolean true => "true"
  | Boolean false => "false"
  | Num n => Number_toString rt n
  | Str s => s
  end.

(** [d.key] and [d[key]] on the request record: a key that is absent reads
    as [undefined].  None of the keys the program reads is a property of
    [Object.prototype]. *)
Definition get (d : gmap string value) (key : string) : value :=
  default Undefined (d !! key).

Definition fmt (n : value) : string := NumberFormat_format rt n.

(** The layout constants of [generatePDF].  They are small integers, on
    which Number arithmetic is exact, and are kept in [Z]; they become
    Numbers where they meet the cursor [y]. *)
Definition pageWidth : Z := 595 - 144.
Definition colLeft : Z := 72.
Definition col1Width : Z := 200.
Definition col2Width : Z := pageWidth - col1Width.
Definition rowHeight : Z := 28.
Definition cellPad : Z := 6.

(** The value of the beneficiary account row (lines 49 to 55). *)
Definition cuenta_del_beneficiario (d : gmap string value) : string :=
  "Banco Intermediario: " +:+ ToString (get d "bancoIntermediario") +:+ nl +:+
  "Ciudad: " +:+ ToString (get d "ciudadIntermediario") +:+ nl +:+
  "Swift Code: " +:+ ToString (get d "swiftIntermediario") +:+ nl +:+
  "ABA: " +:+ ToString (get d "aba") +:+ nl +:+
  "Banco Beneficiario: " +:+ ToString (get d "bancoBeneficiario") +:+ nl +:+
  "Swift code: " +:+ ToString (get d "swiftBeneficiario") +:+ nl +:+
  "Beneficiario Final: " +:+ ToString (get d "ibanBeneficiario").

Definition importe_y_divisa (d : gmap string value) : string :=
  fmt (get d "amount") +:+ " " +:+ ToString (get d "currency").

Definition rows (d : gmap string value) : list (string * value) :=
  [ ("Ordenante", Str "Verdi Square Asset Management SL");
    ("Cuenta del ordenante", Str "ES63 0128 0892 5701 0005 3572");
    ("Importe y divisa", Str (importe_y_divisa d));
    ("Beneficiario", get d "beneficiario");
    ("Cuenta del beneficiario", Str (cuenta_del_beneficiario d));
    ("Dirección completa del beneficiario", get d "dirBeneficiario");
    ("Dirección completa del banco del beneficiario", get d "dirBanco") ].

(** [value.split('\n')]: only a string has the method. *)
Definition TypeError (msg : string) : exn := Exn "TypeError" msg.

Definition value_split (value : value) : M (list string) :=
  match value with
  | Str s => mret (split LF s)
  | Undefined =>
      throw (TypeError "Cannot read properties of undefined (reading 'split')")
  | Null =>
      throw (TypeError "Cannot read properties of null (reading 'split')")
  | Boolean _ | Num _ => throw (TypeError "value.split is not a function")
  end.

(** The height of a row whose value is the string [value] (lines 64 to 66). *)
Definition lineCount (value : string) : Z := Z.of_nat (length (split LF value)).
Definition rh (value : string) : Z :=
  Z.max rowHeight (cellPad * 2 + lineCount value * 14).

Definition no_options : text_options :=
  {| align := None; lineGap := None; width := None |}.

(** The body of [rows.forEach] (lines 63 to 93); [y] is the captured cursor,
    handed back updated. *)
Definition row_body (y : number) (row : string * value) : M number :=
  let '(label, value) := row in
  valueLines ← value_split value;
  let lineCount := Z.of_nat (length valueLines) in
  let rh := Z.max rowHeight (cellPad * 2 + lineCount * 14) in
  y ← (if gt (add y (of_Z rh)) (of_Z 750)
       then emit AddPage;; mret (of_Z 72)
       else mret y);
  emit (Rect (of_Z colLeft) y (of_Z col1Width) (of_Z rh));; emit Stroke;;
  emit (Rect (of_Z (colLeft + col1Width)) y (of_Z col2Width) (of_Z rh));;
  emit Stroke;;
  emit (Font "Helvetica");; emit (FontSize (of_Z 10));;
  emit (Text (Str label)
          (Some (of_Z (colLeft + cellPad), add y (of_Z cellPad)))
          {| align := None; lineGap := Some (of_Z 2);
             width := Some (of_Z (col1Width - cellPad * 2)) |});;
  emit (Font "Helvetica");; emit (FontSize (of_Z 10));;
  emit (Text value
          (Some (of_Z (colLeft + col1Width + cellPad), add y (of_Z cellPad)))
          {| align := None; lineGap := Some (of_Z 2);
             width := Some (of_Z (col2Width - cellPad * 2)) |});;
  mret (add y (of_Z rh)).

(** The executor of the promise (lines 12 to 110).  [doc_y] is what [doc.y]
    reads at line 61, after pdfkit has laid out the heading. *)
Definition executor (d : gmap string value) (doc_y : number) : M unit :=
  emit (NewPDFDocument "A4" (of_Z 72));;
  emit (On "data");; emit (On "end");; emit (On "error");;
  emit (Font "Helvetica");; emit (FontSize (of_Z 11));;
  emit (Text (get d "date") None
          {| align := Some "right"; lineGap := None; width := None |});;
  emit (MoveDown (Some (of_Z 2)));;
  emit (Text (Str "Estimados Srs:") None
          {| align := Some "left"; lineGap := None; width := None |});;
  emit (MoveDown None);;
  emit (Text (Str "Por medio de la presente les solicito que por favor gestionen una transferencia bancaria según los siguientes datos:") None
          {| align := Some "left"; lineGap := Some (of_Z 2); width := None |});;
  emit (MoveDown (Some (div (of_Z 3) (of_Z 2))));;
  y ← forEach row_body (rows d) doc_y;
  emit (SetY (add y (of_Z 24)));;
  emit (Font "Helvetica");; emit (FontSize (of_Z 11));;
  emit (Text (Str "Agradecemos que esta transferencia se gestione lo más rápido posible.") None
          {| align := None; lineGap := Some (of_Z 2); width := None |});;
  emit (Text (Str "Cualquier cosa, por favor no duden en avisar.") None no_options);;
  emit (Text (Str "Muchas gracias,") None no_options);;
  emit (MoveDown (Some (of_Z 3)));;
  emit (Text (Str "_________________________________") None no_options);;
  emit (MoveDown (Some (div (of_Z 3) (of_Z 10))));;
  emit (Text (Str "Administrador Único") None no_options);;
  emit (Text (Str "Verdi Square Asset Management") None no_options);;
  emit DocEnd.

(** The three listeners of lines 15 to 17 on the events of the stream: chunks
    are buffered, the first [end] resolves with their concatenation in
    emission order, the first [error] rejects; a promise settles once. *)
Fixpoint listen (chunks : list (list Byte.byte)) (events : list doc_event)
  : settled (list Byte.byte) :=
  match events with
  | [] => Pending
  | Data chunk :: rest => listen (chunks ++ [chunk]) rest
  | EndEvent :: _ => Fulfilled (concat chunks)
  | ErrorEvent e :: _ => Rejected e
  end.

(** [generatePDF(d)]: the calls made on the document and the outcome of the
    returned promise.  An exception thrown by the executor rejects the
    promise; the stream emits its events after the executor has returned. *)
Definition generatePDF (d : gmap string value) (doc_y : number)
    (events : list doc_event) : list call * settled (list Byte.byte) :=
  match executor d doc_y [] with
  | (Throw e, calls) => (calls, Rejected e)
  | (Ok _, calls) => (calls, listen [] events)
  end.

End Renderer.

(** ** The handler *)

(** [buffer.toString('base64')]: the standard alphabet, padded with [=]. *)
Definition base64_alphabet : string :=
  "ABCDEFGHIJKLMNOPQRSTUVWXYZabcdefghijklmnopqrstuvwxyz0123456789+/".

Definition base64_digit (n : N) : string :=
  match String.get (N.to_nat n) base64_alphabet with
  | Some c => String.String c ""
  | None => ""
  end.

Fixpoint base64 (bytes : list Byte.byte) : string :=
  let b x := Byte.to_N x in
  match bytes with
  | [] => ""
  | [x] =>
      base64_digit (b x / 4) +:+ base64_digit (b x mod 4 * 16) +:+ "=="
  | [x; y] =>
      base64_digit (b x / 4) +:+ base64_digit (b x mod 4 * 16 + b y / 16) +:+
      base64_digit (b y mod 16 * 4) +:+ "="
  | x :: y :: z :: rest =>
      base64_digit (b x / 4) +:+ base64_digit (b x mod 4 * 16 + b y / 16) +:+
      base64_digit (b y mod 16 * 4 + b z / 64) +:+ base64_digit (b z mod 64) +:+
      base64 rest
  end%N.

(** The text of a template with ['] written for the double quote. *)
Fixpoint dquotes (s : string) : string :=
  match s with
  | EmptyString => EmptyString
  | String.String c s' =>
      String.String (if Ascii.eqb c "'"%char then ascii_of_nat 34 else c)
        (dquotes s')
  end.

Record attachment := { filename : string; content : string }.

Record email := {
  from : string;
  to : string;
  subject : string;
  html : string;
  attachments : list attachment
}.

Record http_request := {
  method : string;
  body : option (gmap string value)
}.

(** [res.end()] and [res.json({...})]. *)
Inductive reply :=
| EndReply
| Json (fields : list (string * value)).

Record response := { status : Z; sends : reply }.

(** What the world outside answers during one invocation: the cursor pdfkit
    reports, the events of the document stream, and how the promise of
    [resend.emails.send] settles for a given message.  The value it is
    fulfilled with is kept as opaque text. *)
Record world := {
  doc_y : number;
  doc_events : list doc_event;
  emails_send : email -> settled string
}.

(** What one invocation does: the headers set, the calls on the document,
    the messages handed to the mail channel, what [console.error] logged,
    and the response (none when an awaited promise never settles). *)
Record run := {
  headers : list (string * string);
  doc_calls : list call;
  sent : list email;
  logged : list exn;
  answer : option response
}.

Inductive completion :=
| Return (r : response)
| Thrown (err : exn)
| Hang.

Definition required : list string :=
  [ "amount"; "currency"; "beneficiario"; "dirBeneficiario";
    "bancoBeneficiario"; "swiftBeneficiario"; "ibanBeneficiario";
    "submitterName"; "submitterEmail" ].

Section Handler.

Variable rt : Runtime.

Abbreviation ToString := (ToString rt).
Abbreviation fmt := (fmt rt).

(** The loop of lines 129 to 131: the first field that is falsy, if any. *)
Fixpoint first_missing (d : gmap string value) (fields : list string)
  : option string :=
  match fields with
  | [] => None
  | field :: rest =>
      if negb (ToBoolean (get d field)) then Some field
      else first_missing d rest
  end.

Definition email_subject (d : gmap string value) : string :=
  "Wire Transfer Request " +:+ ToString (get d "ref") +:+ " – " +:+
  ToString (get d "beneficiario") +:+ " – " +:+
  fmt (get d "amount") +:+ " " +:+ ToString (get d "currency").

Definition email_html (d : gmap string value) : string :=
  String.concat ""
    [ dquotes "
        <div style='font-family:Arial,sans-serif;max-width:600px;color:#333;'>
          <h2 style='color:#1a1a2e;border-bottom:2px solid #c9a84c;padding-bottom:8px;'>
            Wire Transfer Request
          </h2>
          <table style='width:100%;border-collapse:collapse;margin:16px 0;font-size:14px;'>
            <tr><td style='padding:8px;color:#888;width:40%;'>Reference</td><td style='padding:8px;font-weight:bold;'>";
      ToString (get d "ref");
      dquotes "</td></tr>
            <tr style='background:#faf9f7;'><td style='padding:8px;color:#888;'>Submitted by</td><td style='padding:8px;'>";
      ToString (get d "submitterName");
      dquotes " (";
      ToString (get d "submitterEmail");
      dquotes ")</td></tr>
            <tr><td style='padding:8px;color:#888;'>Amount</td><td style='padding:8px;font-weight:bold;'>";
      fmt (get d "amount");
      dquotes " ";
      ToString (get d "currency");
      dquotes "</td></tr>
            <tr style='background:#faf9f7;'><td style='padding:8px;color:#888;'>Beneficiario</td><td style='padding:8px;'>";
      ToString (get d "beneficiario");
      dquotes "</td></tr>
            <tr><td style='padding:8px;color:#888;'>Bank</td><td style='padding:8px;'>";
      ToString (get d "bancoBeneficiario");
      dquotes "</td></tr>
            <tr style='background:#faf9f7;'><td style='padding:8px;color:#888;'>Swift</td><td style='padding:8px;'>";
      ToString (get d "swiftBeneficiario");
      dquotes "</td></tr>
            <tr><td style='padding:8px;color:#888;'>IBAN / Account</td><td style='padding:8px;'>";
      ToString (get d "ibanBeneficiario");
      dquotes "</td></tr>
            <tr style='background:#faf9f7;'><td style='padding:8px;color:#888;'>Reference/Purpose</td><td style='padding:8px;'>";
      (let referencia := get d "referencia" in
       ToString (if ToBoolean referencia then referencia else Str "–"));
      dquotes "</td></tr>
            <tr><td style='padding:8px;color:#888;'>Date</td><td style='padding:8px;'>";
      ToString (get d "date");
      dquotes "</td></tr>
          </table>
          <p style='font-size:12px;color:#aaa;'>PDF attached — ready to sign and forward to BankInter.</p>
        </div>
      " ].

Definition email_of (d : gmap string value) (pdfBase64 : string) : email :=
  {| from := "Wire Requests <noreply@onix-cp.com>";
     to := "mk@onix-cp.com";
     subject := email_subject d;
     html := email_html d;
     attachments :=
       [ {| filename := "Wire_Transfer_" +:+ ToString (get d "ref") +:+ ".pdf";
            content := pdfBase64 |} ] |}.

(** The [try] block (lines 123 to 167). *)
Definition try_block (req : http_request) (w : world)
  : list call * list email * completion :=
  match body req with
  | None =>
      ([], [], Thrown (TypeError
         "Cannot read properties of undefined (reading 'amount')"))
  | Some d =>
      match first_missing d required with
      | Some field =>
          ([], [], Return {| status := 400;
             sends := Json [("error", Str ("Missing field: " +:+ field))] |})
      | None =>
          match generatePDF rt d (doc_y w) (doc_events w) with
          | (calls, Pending) => (calls, [], Hang)
          | (calls, Rejected err) => (calls, [], Thrown err)
          | (calls, Fulfilled pdfBuffer) =>
              let pdfBase64 := base64 pdfBuffer in
              let mail := email_of d pdfBase64 in
              match emails_send w mail with
              | Pending => (calls, [mail], Hang)
              | Rejected err => (calls, [mail], Thrown err)
              | Fulfilled _ =>
                  (calls, [mail], Return {| status := 200;
                     sends := Json [("success", Boolean true);
                                    ("ref", get d "ref")] |})
              end
          end
      end
  end.

Definition cors : list (string * string) :=
  [ ("Access-Control-Allow-Origin", "*");
    ("Access-Control-Allow-Methods", "POST, OPTIONS");
    ("Access-Control-Allow-Headers", "Content-Type") ].

Definition handler (req : http_request) (w : world) : run :=
  if String.eqb (method req) "OPTIONS" then
    {| headers := cors; doc_calls := []; sent := []; logged := [];
       answer := Some {| status := 200; sends := EndReply |} |}
  else if negb (String.eqb (method req) "POST") then
    {| headers := cors; doc_calls := []; sent := []; logged := [];
       answer := Some {| status := 405;
         sends := Json [("error", Str "Method not allowed")] |} |}
  else
    match try_block req w with
    | (calls, mails, Return r) =>
        {| headers := cors; doc_calls := calls; sent := mails; logged := [];
           answer := Some r |}
    | (calls, mails, Thrown err) =>
        {| headers := cors; doc_calls := calls; sent := mails;
           logged := [err];
           answer := Some {| status := 500;
             sends := Json [("error", Str (message err))] |} |}
    | (calls, mails, Hang) =>
        {| headers := cors; doc_calls := calls; sent := mails; logged := [];
           answer := None |}
    end.

End Handler.

(** ** Number formatting

    [Intl.NumberFormat] is the engine's.  Its algorithm is the one of
    ECMA-402 (FormatNumericToString with ToRawFixed, rounding mode
    half-expand, grouping "auto") as the engines built on ICU run it: a
    Number is read through the shortest decimal that converts back to it,
    the decimal that [Number::toString] prints, and this decimal is rounded
    (1.005 gives "1,01"); the symbols and the grouping threshold are the
    locale's data, which the engine takes from CLDR. *)

Module Intl.

Record locale_data := {
  decimal : string;
  group : string;
  minimumGroupingDigits : nat;
  minusSign : string;
  nan : string;
  infinity : string
}.

Definition digits (n : N) : string := pretty n.

Fixpoint zeros (n : nat) : string :=
  match n with
  | O => ""
  | S n' => String.String "0" (zeros n')
  end.

Definition pad_left (w : nat) (s : string) : string :=
  zeros (w - String.length s) +:+ s.

(** Drop trailing zeros while more than [keep] characters remain. *)
Fixpoint drop_zeros (keep : nat) (rev_digits : list ascii) : list ascii :=
  match rev_digits with
  | c :: rest =>
      if Ascii.eqb c "0" && Nat.ltb keep (length rev_digits)
      then drop_zeros keep rest else rev_digits
  | [] => []
  end.

Definition trim (keep : nat) (s : string) : string :=
  string_of_list_ascii (rev (drop_zeros keep (rev (list_ascii_of_string s)))).

(** Separate groups of three digits, counted from the right. *)
Fixpoint grouped (sep : string) (s : string) : string :=
  match s with
  | EmptyString => EmptyString
  | String.String c s' =>
      String.String c
        (if Nat.ltb 0 (String.length s') && Nat.eqb (String.length s' mod 3) 0
         then sep +:+ grouped sep s' else grouped sep s')
  end.

(** The Number nearest to [c * 10^p], ties to even, for [c > 0].  For a
    negative [p] the quotient is taken with 64 spare bits and its last bit
    records the remainder, which keeps the final rounding correct. *)
Definition to_number (c p : Z) : number :=
  if 0 <=? p then binary_normalize prec emax (c * 10 ^ p) 0 false
  else
    let s := 64 + 4 * (- p) in
    let q := (c * 2 ^ s) / 10 ^ (- p) in
    let q := if (c * 2 ^ s) mod 10 ^ (- p) =? 0 then q else Z.lor q 1 in
    binary_normalize prec emax q (- s) false.

(** The decimal exponent [n] of the positive rational [N / D]:
    [10^(n-1) <= N / D < 10^n]. *)
Fixpoint exponent_up (fuel : nat) (N D n : Z) : Z :=
  match fuel with
  | O => n
  | S fuel' => if N <? D * 10 ^ n then n else exponent_up fuel' N D (n + 1)
  end.

Fixpoint exponent_down (fuel : nat) (N D n : Z) : Z :=
  match fuel with
  | O => n
  | S fuel' =>
      if D <=? N * 10 ^ (1 - n) then n else exponent_down fuel' N D (n - 1)
  end.

Definition decimal_exponent (N D : Z) : Z :=
  if D <=? N then exponent_up 400 N D 1 else exponent_down 400 N D 0.

(** The shortest decimal [c * 10^p] that converts back to the positive
    Number [x = N / D]: with [k] digits, [k + 1] digits, and so on, the two
    decimals around [x] are tried, and of two that convert back the nearer
    one is taken.  Seventeen digits always suffice. *)
Fixpoint shortest (fuel : nat) (k : Z) (x : number) (N D n : Z) : Z * Z :=
  let p := n - k in
  let '(N', D') :=
    if 0 <=? p then (N, D * 10 ^ p) else (N * 10 ^ (- p), D) in
  let c := N' / D' in
  let r := N' mod D' in
  let nearer :=
    if (2 * r <? D') || ((2 * r =? D') && Z.even c) then c else c + 1 in
  match fuel with
  | O => (nearer, p)
  | S fuel' =>
      let low := SFeqb (to_number c p) x in
      let high := SFeqb (to_number (c + 1) p) x in
      if low && high then (nearer, p)
      else if low then (c, p)
      else if high then (c + 1, p)
      else shortest fuel' (k + 1) x N D n
  end.

Definition shortest_decimal (m : positive) (e : Z) : Z * Z :=
  let '(N, D) :=
    if 0 <=? e then (Z.pos m * 2 ^ e, 1) else (Z.pos m, 2 ^ (- e)) in
  shortest 17 1 (S754_finite false m e) N D (decimal_exponent N D).

(** The integer nearest to [c * 10^p * 10^f], ties away from zero. *)
Definition round_half_expand (c p : Z) (f : nat) : N :=
  let p' := p + Z.of_nat f in
  Z.to_N (if 0 <=? p' then c * 10 ^ p'
          else (2 * c + 10 ^ (- p')) / (2 * 10 ^ (- p'))).

(** The digits of [n / 10^maxFD]: at least [minFD] and at most [maxFD]
    fraction digits, the integer digits grouped when there are at least
    [minimumGroupingDigits] of them before the first separator. *)
Definition fixed (ld : locale_data) (minFD maxFD : nat) (n : N) : string :=
  let ds := pad_left (S maxFD) (digits n) in
  let int_len := (String.length ds - maxFD)%nat in
  let int := String.substring 0 int_len ds in
  let frac := trim minFD (String.substring int_len maxFD ds) in
  (if Nat.leb (3 + minimumGroupingDigits ld) int_len
   then grouped (group ld) int else int)
  +:+ (if String.eqb frac "" then "" else decimal ld +:+ frac).

Definition sign (ld : locale_data) (negative : bool) : string :=
  if negative then minusSign ld else "".

Definition format (ld : locale_data) (minFD maxFD : nat) (x : number) : string :=
  match x with
  | S754_nan => nan ld
  | S754_infinity s => sign ld s +:+ infinity ld
  | S754_zero s => sign ld s +:+ fixed ld minFD maxFD 0
  | S754_finite s m e =>
      let '(c, p) := shortest_decimal m e in
      sign ld s +:+ fixed ld minFD maxFD (round_half_expand c p maxFD)
  end.

(** The number symbols of CLDR for Spanish.  Spanish is one of the few
    locales whose [minimumGroupingDigits] is 2: a separator needs two digits
    in front of it, so four-digit integers are written without one. *)
Definition es : locale_data :=
  {| decimal := ","; group := "."; minimumGroupingDigits := 2;
     minusSign := "-"; nan := "NaN"; infinity := "∞" |}.

(** The same symbols with a separator after every third digit. *)
Definition es_always_grouped : locale_data :=
  {| decimal := ","; group := "."; minimumGroupingDigits := 1;
     minusSign := "-"; nan := "NaN"; infinity := "∞" |}.

End Intl.

(** ** A runtime for the worked examples

    Numbers print as their exact decimal expansion, which is what
    [Number::toString] prints for the integers below 10^21 and for the
    fractions whose expansion is short (0.5, 1234.5); the formatter is
    [Intl.format] with the Spanish data; a string is read as a Number when it
    is a plain decimal literal (sign, digits, point, digits) and as NaN
    otherwise. *)

Module Demo.

Definition print_number (x : number) : string :=
  match x with
  | S754_nan => "NaN"
  | S754_zero _ => "0"
  | S754_infinity s => (if s then "-" else "") +:+ "Infinity"
  | S754_finite s m e =>
      (if s then "-" else "") +:+
      (if 0 <=? e then Intl.digits (Z.to_N (Z.pos m * 2 ^ e))
       else
         let k := Z.to_nat (- e) in
         let int := Z.pos m / 2 ^ (- e) in
         let frac := (Z.pos m mod 2 ^ (- e)) * 5 ^ (- e) in
         let fd := Intl.trim 0 (Intl.pad_left k (Intl.digits (Z.to_N frac))) in
         Intl.digits (Z.to_N int) +:+
         (if String.eqb fd "" then "" else "." +:+ fd))
  end.

Definition digit_of (c : ascii) : option N :=
  let n := N_of_ascii c in
  if ((48 <=? n) && (n <=? 57))%N then Some (n - 48)%N else None.

(** Digits, then optionally a point and digits: the digits read as one
    integer, and how many of them follow the point. *)
Fixpoint read_digits (s : string) (acc : N) (point : option nat) (seen : bool)
  : option (N * nat) :=
  match s with
  | EmptyString => if seen then Some (acc, default O point) else None
  | String.String c s' =>
      match digit_of c, point with
      | Some n, None => read_digits s' (10 * acc + n)%N None true
      | Some n, Some k => read_digits s' (10 * acc + n)%N (Some (S k)) true
      | None, None =>
          if Ascii.eqb c "." then read_digits s' acc (Some O) seen else None
      | None, Some _ => None
      end
  end.

(** The Number nearest to [m / 10^k], ties to even. *)
Definition nearest (negative : bool) (m : N) (k : nat) : number :=
  let s := 128 + 4 * Z.of_nat k in
  let num := Z.of_N m * 2 ^ s in
  let den := 10 ^ Z.of_nat k in
  let q := num / den in
  let q := if num mod den =? 0 then q else Z.lor q 1 in
  binary_normalize prec emax (if negative then - q else q) (- s) negative.

Definition read_number (s : string) : number :=
  let '(negative, unsigned) :=
    match s with
    | String.String "-" s' => (true, s')
    | String.String "+" s' => (false, s')
    | _ => (false, s)
    end in
  match read_digits unsigned 0 None false with
  | Some (m, k) => nearest negative m k
  | None => NaN
  end.

Definition ToNumber (v : value) : number :=
  match v with
  | Undefined => NaN
  | Null => of_Z 0
  | Boolean b => of_Z (if b then 1 else 0)
  | Num x => x
  | Str s => read_number s
  end.

Definition runtime : Runtime :=
  {| Number_toString := print_number;
     NumberFormat_format := fun v => Intl.format Intl.es 2 2 (ToNumber v) |}.

(** The Number 1234.5. *)
Definition n1234_5 : number := div (of_Z 2469) (of_Z 2).

End Demo.

(** ** The pagination as the specification states it

    Section 4.2 of the specification, written down independently of the
    loop: a row whose height would carry the cursor past 750 starts a new
    page and is drawn whole at the top margin 72; any other row is drawn at
    the cursor; the cursor then stands below the row. *)

Definition draw_cells (label value : string) (cursor : number) (height : Z)
  : list call :=
  [ Rect (of_Z 72) cursor (of_Z 200) (of_Z height); Stroke;
    Rect (of_Z 272) cursor (of_Z 251) (of_Z height); Stroke;
    Font "Helvetica"; FontSize (of_Z 10);
    Text (Str label) (Some (of_Z 78, add cursor (of_Z 6)))
      {| align := None; lineGap := Some (of_Z 2); width := Some (of_Z 188) |};
    Font "Helvetica"; FontSize (of_Z 10);
    Text (Str value) (Some (of_Z 278, add cursor (of_Z 6)))
      {| align := None; lineGap := Some (of_Z 2); width := Some (of_Z 239) |} ].

Definition exceeds_bottom (cursor : number) (height : Z) : bool :=
  gt (add cursor (of_Z height)) (of_Z 750).

Fixpoint paginate (table : list (string * string)) (cursor : number)
  : list call * number :=
  match table with
  | [] => ([], cursor)
  | (label, value) :: rest =>
      let height := Z.max 28 (12 + 14 * Z.of_nat (length (split LF value))) in
      if exceeds_bottom cursor height then
        let '(calls, final) := paginate rest (add (of_Z 72) (of_Z height)) in
        (AddPage :: draw_cells label value (of_Z 72) height ++ calls, final)
      else
        let '(calls, final) := paginate rest (add cursor (of_Z height)) in
        (draw_cells label value cursor height ++ calls, final)
  end.

(** ** The beneficiary account cell as the specification states it

    Seven labelled sub-lines in a fixed order: the label of each and the key
    of the request it prints. *)

Definition account_fields : list (string * string) :=
  [ ("Banco Intermediario: ", "bancoIntermediario");
    ("Ciudad: ", "ciudadIntermediario");
    ("Swift Code: ", "swiftIntermediario");
    ("ABA: ", "aba");
    ("Banco Beneficiario: ", "bancoBeneficiario");
    ("Swift code: ", "swiftBeneficiario");
    ("Beneficiario Final: ", "ibanBeneficiario") ].

Definition account_lines (rt : Runtime) (d : gmap string value) : list string :=
  map (fun field => field.1 +:+ ToString rt (get d field.2)) account_fields.

(** The four sub-lines of the intermediary bank. *)
Definition intermediary_fields : list (string * string) :=
  firstn 4 account_fields.

(** A request whose seven account sub-fields are strings, the first of them
    written on two lines. *)
Definition two_line_bank : gmap string value :=
  list_to_map
    [ ("bancoIntermediario", Str ("Citibank N.A." +:+ nl +:+ "New York Branch"));
      ("ciudadIntermediario", Str "New York");
      ("swiftIntermediario", Str "CITIUS33");
      ("aba", Str "");
      ("bancoBeneficiario", Str "Banco Uno");
      ("swiftBeneficiario", Str "BUNOPAPA");
      ("ibanBeneficiario", Str "PA00 0000 0000") ].

(** A request whose seven account sub-fields are one-line strings, two of
    them empty. *)
Definition one_line_fields : gmap string value :=
  list_to_map
    [ ("bancoIntermediario", Str "");
      ("ciudadIntermediario", Str "New York");
      ("swiftIntermediario", Str "CITIUS33");
      ("aba", Str "");
      ("bancoBeneficiario", Str "Banco Uno");
      ("swiftBeneficiario", Str "BUNOPAPA");
      ("ibanBeneficiario", Str "PA00 0000 0000") ].

(** ** Requests and worlds for the worked examples *)

(** A request with the nine required fields and nothing else. *)
Definition nine_fields : gmap string value :=
  list_to_map
    [ ("amount", Num Demo.n1234_5);
      ("currency", Str "USD");
      ("beneficiario", Str "Acme Trading Inc");
      ("dirBeneficiario", Str "1 Main Street, Panama");
      ("bancoBeneficiario", Str "Banco Uno");
      ("swiftBeneficiario", Str "BUNOPAPA");
      ("ibanBeneficiario", Str "PA00 0000 0000");
      ("submitterName", Str "Ana");
      ("submitterEmail", Str "ana@example.com") ].

(** The same with the address of the bank and a date, still without [ref]. *)
Definition no_ref : gmap string value :=
  <["dirBanco" := Str "2 Bank Street, Panama"]>
    (<["date" := Str "2025-01-31"]> nine_fields).

(** The same with an amount of zero. *)
Definition zero_amount : gmap string value :=
  <["amount" := Num (of_Z 0)]> no_ref.

Definition post (d : gmap string value) : http_request :=
  {| method := "POST"; body := Some d |}.

(** A world in which pdfkit reports the cursor 250, emits two chunks and
    ends, and the mail channel accepts the message. *)
Definition fair_world : world :=
  {| doc_y := of_Z 250;
     doc_events := [Data [Byte.x25; Byte.x50]; Data [Byte.x44; Byte.x46];
                    EndEvent];
     emails_send := fun _ => Fulfilled "{}" |}.

(** A world in which the document is rendered and the mail channel rejects
    the message. *)
Definition mail_down : world :=
  {| doc_y := of_Z 250;
     doc_events := [Data [Byte.x25; Byte.x50]; Data [Byte.x44; Byte.x46];
                    EndEvent];
     emails_send := fun _ => Rejected (Exn "Error" "connect ETIMEDOUT") |}.

(** The events of a document whose information dictionary carries the given
    creation time.  pdfkit writes [CreationDate: new Date()] into every
    document, and derives the file identifier from it, unless the caller
    passes [info.CreationDate]; [generatePDF] passes [size] and [margin]
    only. *)
Definition stamped (creation : string) : list doc_event :=
  [ Data (list_byte_of_string "%PDF-1.3");
    Data (list_byte_of_string ("/CreationDate (D:" +:+ creation +:+ "Z)"));
    EndEvent ].

(** The keys of the request that [generatePDF] reads. *)
Definition rendered_fields : list string :=
  [ "date"; "amount"; "currency"; "beneficiario";
    "bancoIntermediario"; "ciudadIntermediario"; "swiftIntermediario"; "aba";
    "bancoBeneficiario"; "swiftBeneficiario"; "ibanBeneficiario";
    "dirBeneficiario"; "dirBanco" ].

(** The seven rows of the table when the three values taken as they are from
    the request are strings. *)
Definition table (rt : Runtime) (d : gmap string value)
    (beneficiario dirBeneficiario dirBanco : string) : list (string * string) :=
  [ ("Ordenante", "Verdi Square Asset Management SL");
    ("Cuenta del ordenante", "ES63 0128 0892 5701 0005 3572");
    ("Importe y divisa", importe_y_divisa rt d);
    ("Beneficiario", beneficiario);
    ("Cuenta del beneficiario", cuenta_del_beneficiario rt d);
    ("Dirección completa del beneficiario", dirBeneficiario);
    ("Dirección completa del banco del beneficiario", dirBanco) ].

(** ** Measures of a trace, and the parts of the letter *)

(** The texts written, the rectangles drawn and the pages added, in a list
    of calls. *)
Definition texts (calls : list call) : list value :=
  flat_map (fun c => match c with Text t _ _ => [t] | _ => [] end) calls.

Definition rects (calls : list call) : nat :=
  length (List.filter
            (fun c => match c with Rect _ _ _ _ => true | _ => false end) calls).

Definition page_breaks (calls : list call) : nat :=
  length (List.filter
            (fun c => match c with AddPage => true | _ => false end) calls).

(** The calls of lines 12 to 34, before the table. *)
Definition heading (d : gmap string value) : list call :=
  [ NewPDFDocument "A4" (of_Z 72);
    On "data"; On "end"; On "error";
    Font "Helvetica"; FontSize (of_Z 11);
    Text (get d "date") None
      {| align := Some "right"; lineGap := None; width := None |};
    MoveDown (Some (of_Z 2));
    Text (Str "Estimados Srs:") None
      {| align := Some "left"; lineGap := None; width := None |};
    MoveDown None;
    Text (Str "Por medio de la presente les solicito que por favor gestionen una transferencia bancaria según los siguientes datos:") None
      {| align := Some "left"; lineGap := Some (of_Z 2); width := None |};
    MoveDown (Some (div (of_Z 3) (of_Z 2))) ].

(** The calls of lines 95 to 110, after the table, [y] being the cursor the
    loop has left. *)
Definition closing (y : number) : list call :=
  [ SetY (add y (of_Z 24));
    Font "Helvetica"; FontSize (of_Z 11);
    Text (Str "Agradecemos que esta transferencia se gestione lo más rápido posible.") None
      {| align := None; lineGap := Some (of_Z 2); width := None |};
    Text (Str "Cualquier cosa, por favor no duden en avisar.") None no_options;
    Text (Str "Muchas gracias,") None no_options;
    MoveDown (Some (of_Z 3));
    Text (Str "_________________________________") None no_options;
    MoveDown (Some (div (of_Z 3) (of_Z 10)));
    Text (Str "Administrador Único") None no_options;
    Text (Str "Verdi Square Asset Management") None no_options;
    DocEnd ].

(** The three keys whose values become rows as they are. *)
Definition raw_row_keys : list string :=
  [ "beneficiario"; "dirBeneficiario"; "dirBanco" ].

(** [s] occurs in [t]. *)
Definition occurs_in (s t : string) : Prop :=
  exists pre post, t = pre +:+ s +:+ post.

(** The keys that the HTML summary prints with a plain [${d.key}]. *)
Definition summary_keys : list string :=
  [ "ref"; "submitterName"; "submitterEmail"; "currency"; "beneficiario";
    "bancoBeneficiario"; "swiftBeneficiario"; "ibanBeneficiario"; "date" ].

(** The request [no_ref] with a beneficiary given as a number. *)
Definition numeric_beneficiary : gmap string value :=
  <["beneficiario" := Num (of_Z 42)]> no_ref.

(** A world whose document stream emits chunks and then falls silent. *)
Definition silent_stream : world :=
  {| doc_y := of_Z 250;
     doc_events := [Data [Byte.x25; Byte.x50]; Data [Byte.x44; Byte.x46]];
     emails_send := fun _ => Fulfilled "{}" |}.

(** A world whose document stream ends and signals an error afterwards. *)
Definition late_error : world :=
  {| doc_y := of_Z 250;
     doc_events := [Data [Byte.x25; Byte.x50]; Data [Byte.x44; Byte.x46];
                    EndEvent; ErrorEvent (Exn "Error" "write after end");
                    Data [Byte.x0a]];
     emails_send := fun _ => Fulfilled "{}" |}.

(** ** The row height as the specification states it

    The maximum of the minimum row height 28 and of twice the cell padding 6
    plus 14 for each line of the value. *)
Definition height_of_lines (lines : nat) : Z :=
  Z.max 28 (6 * 2 + Z.of_nat lines * 14).

(** A world in which the document stream fails after a first chunk. *)
Definition stream_fails : world :=
  {| doc_y := of_Z 250;
     doc_events := [Data [Byte.x25; Byte.x50];
                    ErrorEvent (Exn "Error" "stream failure")];
     emails_send := fun _ => Fulfilled "{}" |}.

(** A world in which the document is rendered and the mail service refuses
    the message: the promise of [send] is fulfilled, with a value that
    reports the refusal. *)
Definition mail_refused : world :=
  {| doc_y := of_Z 250;
     doc_events := [Data [Byte.x25; Byte.x50]; Data [Byte.x44; Byte.x46];
                    EndEvent];
     emails_send := fun _ =>
       Fulfilled "{ data: null, error: { statusCode: 403, name: 'validation_error', message: 'The onix-cp.com domain is not verified.' } }" |}.

(** * Properties *)

(** ** Splitting and joining *)

Lemma split_nonempty (c : ascii) (s : string) : split c s <> [].
Proof.
  destruct s as [|x s]; simpl; [discriminate|].
  destruct (Ascii.eqb x c); [discriminate|].
  destruct (split c s); discriminate.
Qed.

Lemma length_split (c : ascii) (s : string) :
  length (split c s) = S (occurrences c s).
Proof.
  induction s as [|x s IH]; simpl; [reflexivity|].
  destruct (Ascii.eqb x c); simpl; [now rewrite IH|].
  destruct (split c s) as [|l ls]; simpl in *; [discriminate|exact IH].
Qed.

Lemma split_append_sep (c : ascii) (a b : string) :
  split c (a +:+ String.String c b) = split c a ++ split c b.
Proof.
  induction a as [|x a IH]; simpl.
  - now rewrite Ascii.eqb_refl.
  - destruct (Ascii.eqb x c); [now rewrite IH|].
    rewrite IH. pose proof (split_nonempty c a) as Hne.
    destruct (split c a) as [|l ls]; [contradiction|reflexivity].
Qed.

Lemma split_without_sep (c : ascii) (s : string) :
  occurrences c s = O -> split c s = [s].
Proof.
  induction s as [|x s IH]; simpl; [reflexivity|].
  destruct (Ascii.eqb x c); [discriminate|].
  intros H. now rewrite (IH H).
Qed.

Lemma occurrences_append (c : ascii) (a b : string) :
  occurrences c (a +:+ b) = (occurrences c a + occurrences c b)%nat.
Proof.
  induction a as [|x a IH]; simpl; [reflexivity|].
  destruct (Ascii.eqb x c); simpl; now rewrite IH.
Qed.

Lemma append_cons (x : ascii) (a b : string) :
  String.String x a +:+ b = String.String x (a +:+ b).
Proof. reflexivity. Qed.

Lemma append_assoc (a b c : string) : (a +:+ b) +:+ c = a +:+ b +:+ c.
Proof.
  induction a as [|x a IH]; [reflexivity|].
  rewrite !append_cons. f_equal. exact IH.
Qed.

Lemma split_join (xs : list string) :
  xs <> [] -> split LF (join nl xs) = concat (map (split LF) xs).
Proof.
  induction xs as [|x [|y rest] IH]; intros Hne; [contradiction| |].
  - simpl. now rewrite app_nil_r.
  - change (join nl (x :: y :: rest))
      with (x +:+ String.String LF (join nl (y :: rest))).
    rewrite split_append_sep, IH by discriminate. reflexivity.
Qed.

Lemma split_join_lines (xs : list string) :
  xs <> [] -> Forall (fun x => occurrences LF x = O) xs ->
  split LF (join nl xs) = xs.
Proof.
  intros Hne Hall. rewrite split_join by exact Hne. clear Hne.
  induction Hall as [|x xs Hx _ IH]; [reflexivity|].
  simpl. rewrite (split_without_sep _ _ Hx), IH. reflexivity.
Qed.

(** ** Row height *)

Lemma rh_lines (value : string) :
  rh value = Z.max 28 (12 + 14 * (1 + Z.of_nat (occurrences LF value))).
Proof.
  unfold rh, lineCount, rowHeight, cellPad. rewrite length_split. lia.
Qed.

Lemma row_body_string (label value : string) (y : number) (calls : list call) :
  row_body y (label, Str value) calls =
  if gt (add y (of_Z (rh value))) (of_Z 750)
  then (Ok (add (of_Z 72) (of_Z (rh value))),
        calls ++ AddPage :: draw_cells label value (of_Z 72) (rh value))
  else (Ok (add y (of_Z (rh value))),
        calls ++ draw_cells label value y (rh value)).
Proof.
  unfold row_body, value_split, rh, lineCount.
  cbv [mbind mret M_bind M_ret bind ret emit].
  destruct (gt _ _); rewrite <- ?app_assoc; reflexivity.
Qed.

(** C2: the height that the loop gives to a row, the one it passes to both
    rectangles and adds to the cursor, is max(28, 6 * 2 + lines * 14), where
    the lines are those of the value split at its line feeds, one more than
    it has line feeds.  It is therefore never below 28, grows with the
    number of line feeds, and is the same for two values with the same
    number of line feeds, whatever their length: no text is measured. *)
Theorem row_height_by_line_breaks (label value : string) (y : number)
    (calls : list call) :
  let height := height_of_lines (length (split LF value)) in
  row_body y (label, Str value) calls
  = (if gt (add y (of_Z height)) (of_Z 750)
     then (Ok (add (of_Z 72) (of_Z height)),
           calls ++ AddPage :: draw_cells label value (of_Z 72) height)
     else (Ok (add y (of_Z height)),
           calls ++ draw_cells label value y height)) /\
  (forall top : number,
     firstn 4 (draw_cells label value top height)
     = [ Rect (of_Z 72) top (of_Z 200) (of_Z height); Stroke;
         Rect (of_Z 272) top (of_Z 251) (of_Z height); Stroke ]) /\
  length (split LF value) = S (occurrences LF value) /\
  28 <= height /\
  (forall value' : string,
     (occurrences LF value <= occurrences LF value')%nat ->
     height <= height_of_lines (length (split LF value'))) /\
  (forall value' : string,
     occurrences LF value = occurrences LF value' ->
     height = height_of_lines (length (split LF value'))).
Proof.
  intros height.
  assert (Hrh : rh value = height)
    by (unfold height, height_of_lines, rh, lineCount, rowHeight, cellPad; lia).
  split; [rewrite row_body_string, Hrh; reflexivity|].
  split; [reflexivity|]. split; [apply length_split|].
  subst height. unfold height_of_lines. rewrite length_split.
  split; [lia|]. split; intros value' H; rewrite length_split; lia.
Qed.

Lemma row_height_by_line_breaks_witness :
  height_of_lines (length (split LF ("a" +:+ nl +:+ "b")))
  <= height_of_lines (length (split LF ("c" +:+ nl +:+ "d" +:+ nl +:+ "e"))) /\
  height_of_lines (length (split LF "short"))
  = height_of_lines (length (split LF
      "a much longer value that pdfkit would wrap over lines")).
Proof.
  pose proof (row_height_by_line_breaks "Beneficiario" ("a" +:+ nl +:+ "b")
                (of_Z 250) []) as (_ & _ & _ & _ & Hle & _).
  pose proof (row_height_by_line_breaks "Beneficiario" "short" (of_Z 250) [])
    as (_ & _ & _ & _ & _ & Heq).
  split; [apply Hle; vm_compute; lia|apply Heq; reflexivity].
Defined.

(** ** Pagination *)

Example split_two_lines :
  split LF ("Swift Code: X" +:+ nl +:+ "ABA: ") = ["Swift Code: X"; "ABA: "].
Proof. reflexivity. Qed.

Example split_empty : split LF "" = [""].
Proof. reflexivity. Qed.

Example rh_one_line : rh "Acme Trading Inc" = 28.
Proof. reflexivity. Qed.

Example rh_seven_lines :
  rh (cuenta_del_beneficiario Demo.runtime one_line_fields) = 110.
Proof. vm_compute. reflexivity. Qed.

(** A row of height 28 at 722 reaches 750 and stays on the page; a tenth of a
    point lower it does not. *)
Example fits_at_722 : exceeds_bottom (of_Z 722) 28 = false.
Proof. vm_compute. reflexivity. Qed.

Example overflows_below_722 :
  exceeds_bottom (div (of_Z 7221) (of_Z 10)) 28 = true.
Proof. vm_compute. reflexivity. Qed.

Lemma rows_of_strings (rt : Runtime) (d : gmap string value)
    (beneficiario dirBeneficiario dirBanco : string) :
  get d "beneficiario" = Str beneficiario ->
  get d "dirBeneficiario" = Str dirBeneficiario ->
  get d "dirBanco" = Str dirBanco ->
  rows rt d
  = map (fun row => (row.1, Str row.2))
      (table rt d beneficiario dirBeneficiario dirBanco).
Proof. intros H1 H2 H3. unfold rows. rewrite H1, H2, H3. reflexivity. Qed.

(** A row whose value is not a string stops the loop with a [TypeError]; what
    was drawn before stays drawn. *)
Lemma row_body_not_a_string (label : string) (v : value) (y : number)
    (calls : list call) :
  (forall s, v <> Str s) ->
  exists msg, row_body y (label, v) calls = (Throw (TypeError msg), calls).
Proof.
  intros Hv. destruct v as [| |b|n|s]; try (eexists; reflexivity).
  now destruct (Hv s).
Qed.

(** C1: the loop over the rows paginates as the specification states.  For
    every sequence of rows with string values, every cursor and whatever was
    drawn before, [rows.forEach] adds exactly the calls of [paginate] and
    leaves the cursor where [paginate] leaves it: a row that would pass 750
    is preceded by one [addPage] and drawn whole at 72, any other row is
    drawn at the cursor, and the cursor advances by the height of the row.
    The cells of a row contain no page break. *)
Theorem forEach_rows_paginates (table : list (string * string))
    (cursor : number) (drawn : list call) :
  forEach row_body (map (fun row => (row.1, Str row.2)) table) cursor drawn
  = (Ok (paginate table cursor).2, drawn ++ (paginate table cursor).1)
  /\ (forall label value y height,
        ~ In AddPage (draw_cells label value y height)).
Proof.
  split.
  - revert cursor drawn.
    induction table as [|[label value] rest IH]; intros cursor drawn.
    + simpl. now rewrite app_nil_r.
    + cbn [map forEach fst snd paginate].
      change (mbind ?k ?m) with (bind m k).
      unfold bind at 1. rewrite row_body_string.
      unfold exceeds_bottom.
      replace (Z.max 28 (12 + 14 * Z.of_nat (length (split LF value))))
        with (rh value) by (unfold rh, lineCount, rowHeight, cellPad; lia).
      destruct (gt _ _); rewrite IH;
        destruct (paginate rest _) as [calls final]; cbn [fst snd];
        rewrite <- ?app_assoc; reflexivity.
  - intros label value y height [H|[H|[H|[H|[H|[H|[H|[H|[H|[H|[]]]]]]]]]]];
      discriminate H.
Qed.

(** ** The beneficiary account cell *)

Lemma cuenta_is_join (rt : Runtime) (d : gmap string value) :
  cuenta_del_beneficiario rt d = join nl (account_lines rt d).
Proof.
  unfold cuenta_del_beneficiario, account_lines, account_fields.
  cbn [map join fst snd]. rewrite !append_assoc. reflexivity.
Qed.

Lemma split_cuenta (rt : Runtime) (d : gmap string value) :
  split LF (cuenta_del_beneficiario rt d)
  = concat (map (split LF) (account_lines rt d)).
Proof. rewrite cuenta_is_join. apply split_join. discriminate. Qed.

Lemma account_label_one_line (label key : string) :
  In (label, key) account_fields -> occurrences LF label = O.
Proof.
  intros [H|[H|[H|[H|[H|[H|[H|[]]]]]]]]; inversion H; reflexivity.
Qed.

(** C4, as amended: the value of the "Cuenta del beneficiario" row is the
    seven labelled sub-lines, in the fixed order, joined by line feeds; when
    the seven sub-fields are strings none of which contains a line feed,
    empty or not, the value splits into exactly these seven lines. *)
Theorem cuenta_seven_lines (rt : Runtime) (d : gmap string value) :
  cuenta_del_beneficiario rt d = join nl (account_lines rt d) /\
  length (account_lines rt d) = 7%nat /\
  (Forall (fun field : string * string =>
             exists s, get d field.2 = Str s /\ occurrences LF s = O)
          account_fields ->
   split LF (cuenta_del_beneficiario rt d) = account_lines rt d).
Proof.
  split; [apply cuenta_is_join|]. split; [reflexivity|]. intros Hall.
  rewrite cuenta_is_join. apply split_join_lines; [discriminate|].
  unfold account_lines. rewrite Forall_map.
  rewrite Forall_forall in Hall. apply Forall_forall.
  intros [label key] Hin. destruct (Hall _ Hin) as (s & Hs & Hlf).
  cbn [fst snd] in *. rewrite Hs, occurrences_append. cbn [ToString].
  rewrite (account_label_one_line label key), Hlf; [reflexivity|].
  now apply list_elem_of_In.
Qed.

Lemma cuenta_seven_lines_witness :
  split LF (cuenta_del_beneficiario Demo.runtime one_line_fields)
  = [ "Banco Intermediario: "; "Ciudad: New York"; "Swift Code: CITIUS33";
      "ABA: "; "Banco Beneficiario: Banco Uno"; "Swift code: BUNOPAPA";
      "Beneficiario Final: PA00 0000 0000" ].
Proof.
  apply (proj2 (proj2 (cuenta_seven_lines Demo.runtime one_line_fields))).
  repeat constructor; eexists; split; vm_compute; reflexivity.
Defined.

(** C4 as stated fails: the seven sub-fields of [two_line_bank] are all
    strings, and the value splits into eight lines. *)
Lemma cuenta_eight_lines :
  Forall (fun field : string * string =>
            exists s, get two_line_bank field.2 = Str s) account_fields /\
  length (split LF (cuenta_del_beneficiario Demo.runtime two_line_bank))
  = 8%nat.
Proof.
  split; [|vm_compute; reflexivity].
  repeat constructor; eexists; vm_compute; reflexivity.
Qed.

(** ** Validation *)

Lemma first_missing_Some (d : gmap string value) (fields : list string) :
  Exists (fun field => ToBoolean (get d field) = false) fields ->
  exists before field after,
    fields = before ++ field :: after /\
    Forall (fun k => ToBoolean (get d k) = true) before /\
    ToBoolean (get d field) = false /\
    first_missing d fields = Some field.
Proof.
  induction fields as [|f rest IH]; intros Hex; [inversion Hex|].
  destruct (ToBoolean (get d f)) eqn:Hf.
  - assert (Hrest : Exists (fun field => ToBoolean (get d field) = false) rest).
    { inversion Hex as [? ? H|]; subst; [congruence|assumption]. }
    destruct (IH Hrest) as (before & field & after & -> & Hb & Hfalse & Hfm).
    exists (f :: before), field, after. repeat split; auto.
    simpl. now rewrite Hf.
  - exists [], f, rest. repeat split; auto. simpl. now rewrite Hf.
Qed.

Lemma first_missing_None (d : gmap string value) (fields : list string) :
  Forall (fun k => ToBoolean (get d k) = true) fields ->
  first_missing d fields = None.
Proof.
  induction 1 as [|f rest Hf _ IH]; [reflexivity|].
  simpl. now rewrite Hf.
Qed.

Lemma first_missing_truthiness (d d' : gmap string value) (fields : list string) :
  (forall k, In k fields -> ToBoolean (get d' k) = ToBoolean (get d k)) ->
  first_missing d' fields = first_missing d fields.
Proof.
  induction fields as [|f rest IH]; intros H; [reflexivity|].
  simpl. rewrite (H f) by now left.
  destruct (ToBoolean (get d f)); [|reflexivity].
  apply IH. intros k Hk. apply H. now right.
Qed.

(** C5: when some required field of a posted record is absent or falsy, the
    handler answers 400 naming the first such field of the list, makes no
    call on the document and hands nothing to the mail channel; and the
    check sees of each required field only whether it is truthy. *)
Theorem missing_field_is_reported (rt : Runtime) (req : http_request)
    (w : world) (d : gmap string value) :
  method req = "POST" ->
  body req = Some d ->
  Exists (fun field => ToBoolean (get d field) = false) required ->
  (exists before field after,
     required = before ++ field :: after /\
     Forall (fun k => ToBoolean (get d k) = true) before /\
     ToBoolean (get d field) = false /\
     handler rt req w =
       {| headers := cors; doc_calls := []; sent := []; logged := [];
          answer := Some {| status := 400;
            sends := Json [("error", Str ("Missing field: " +:+ field))] |} |})
  /\ (forall d' : gmap string value,
        (forall k, In k required ->
           ToBoolean (get d' k) = ToBoolean (get d k)) ->
        first_missing d' required = first_missing d required).
Proof.
  intros Hm Hb Hex.
  split; [|intros d' H; now apply first_missing_truthiness].
  destruct (first_missing_Some d required Hex)
    as (before & field & after & Hreq & Hbefore & Hfalse & Hfm).
  exists before, field, after. repeat split; auto.
  unfold handler, try_block. rewrite Hm, Hb, Hfm. reflexivity.
Qed.

Lemma missing_field_is_reported_witness :
  answer (handler Demo.runtime (post zero_amount) fair_world)
  = Some {| status := 400;
            sends := Json [("error", Str "Missing field: amount")] |}.
Proof.
  destruct (missing_field_is_reported Demo.runtime (post zero_amount)
              fair_world zero_amount eq_refl eq_refl)
    as [(before & field & after & Hreq & Hbefore & Hfalse & Hrun) _].
  { left. vm_compute. reflexivity. }
  destruct before as [|k before].
  - injection Hreq as <- _. rewrite Hrun. reflexivity.
  - injection Hreq as <- _. inversion Hbefore as [|? ? Hk _]. discriminate Hk.
Defined.

Lemma first_missing_insert (d : gmap string value) (key : string) (v : value)
    (fields : list string) :
  ~ In key fields ->
  first_missing (<[key := v]> d) fields = first_missing d fields.
Proof.
  intros Hnot. apply first_missing_truthiness. intros k Hk.
  unfold get. rewrite lookup_insert_ne; [reflexivity|].
  intros ->. exact (Hnot Hk).
Qed.

Lemma in_split_cuenta (rt : Runtime) (d : gmap string value) (line : string) :
  In line (account_lines rt d) -> occurrences LF line = O ->
  In line (split LF (cuenta_del_beneficiario rt d)).
Proof.
  intros Hin Hlf. rewrite split_cuenta. apply in_concat.
  exists [line]. split; [|now left].
  rewrite <- (split_without_sep LF line Hlf). now apply in_map.
Qed.

(** C10: the four sub-fields of the intermediary bank are not among the
    required fields, so giving, changing or leaving out one of them never
    changes the verdict of the validation; and when its key is absent, the
    value of the "Cuenta del beneficiario" row, which is one of the rows of
    the table, still has the line of that sub-field, made of its label
    followed by the text "undefined". *)
Theorem absent_intermediary_prints_undefined (rt : Runtime)
    (d : gmap string value) (label key : string) :
  In (label, key) intermediary_fields ->
  d !! key = None ->
  In (label +:+ "undefined") (split LF (cuenta_del_beneficiario rt d)) /\
  In ("Cuenta del beneficiario", Str (cuenta_del_beneficiario rt d))
     (rows rt d) /\
  ~ In key required /\
  (forall v : value,
     first_missing (<[key := v]> d) required = first_missing d required).
Proof.
  intros Hin Habsent.
  assert (Hfield : In (label, key) account_fields).
  { unfold intermediary_fields in Hin. cbn [firstn account_fields] in Hin.
    unfold account_fields. cbn [In] in *. tauto. }
  assert (Hnot : ~ In key required).
  { destruct Hin as [H|[H|[H|[H|[]]]]]; inversion H; subst;
      cbn [In required]; intuition discriminate. }
  split; [|split; [|split]].
  - apply in_split_cuenta.
    + unfold account_lines. apply in_map_iff. exists (label, key).
      split; [|exact Hfield]. cbn [fst snd]. unfold get.
      rewrite Habsent. reflexivity.
    + rewrite occurrences_append, (account_label_one_line label key Hfield).
      reflexivity.
  - unfold rows. cbn [In]. tauto.
  - exact Hnot.
  - intros v. now apply first_missing_insert.
Qed.

Lemma absent_intermediary_prints_undefined_witness :
  In "ABA: undefined" (split LF (cuenta_del_beneficiario Demo.runtime no_ref)).
Proof.
  apply (absent_intermediary_prints_undefined Demo.runtime no_ref
           "ABA: " "aba").
  - cbn. tauto.
  - vm_compute. reflexivity.
Defined.

(** ** Failures of the rendering engine *)

Lemma listen_error (chunks : list (list Byte.byte)) (before after : list doc_event)
    (e : exn) :
  Forall (fun ev => exists chunk, ev = Data chunk) before ->
  listen chunks (before ++ ErrorEvent e :: after) = Rejected e.
Proof.
  intros Hdata. revert chunks.
  induction Hdata as [|ev before [chunk ->] _ IH]; intros chunks.
  - reflexivity.
  - simpl. apply IH.
Qed.

Lemma listen_not_partial (chunks : list (list Byte.byte)) (events : list doc_event)
    (bytes : list Byte.byte) :
  listen chunks events = Fulfilled bytes ->
  exists before after,
    events = before ++ EndEvent :: after /\
    Forall (fun ev => exists chunk, ev = Data chunk) before.
Proof.
  revert chunks. induction events as [|ev events IH]; intros chunks H.
  - discriminate H.
  - destruct ev as [chunk| |e]; simpl in H.
    + destruct (IH _ H) as (before & after & -> & Hdata).
      exists (Data chunk :: before), after. split; [reflexivity|].
      constructor; [now exists chunk|exact Hdata].
    + exists [], events. split; [reflexivity|constructor].
    + discriminate H.
Qed.

(** The promise is fulfilled with the chunks emitted before the first [end],
    concatenated in emission order. *)
Lemma listen_end (chunks emitted : list (list Byte.byte)) (after : list doc_event) :
  listen chunks (map Data emitted ++ EndEvent :: after)
  = Fulfilled (concat (chunks ++ emitted)).
Proof.
  revert chunks. induction emitted as [|chunk emitted IH]; intros chunks.
  - simpl. now rewrite app_nil_r.
  - simpl. rewrite IH, <- app_assoc. reflexivity.
Qed.

(** C6, as amended: when the document stream signals an error before it
    ends, the promise of [generatePDF] is rejected, with that very error as
    its reason whenever the executor itself has not thrown before (the code
    wraps it in nothing), and never fulfilled with the chunks buffered so
    far; the handler then logs the reason, answers 500 with its message and
    hands nothing to the mail channel. *)
Theorem engine_error_rejects (rt : Runtime) (d : gmap string value)
    (y : number) (before after : list doc_event) (e : exn) :
  Forall (fun ev => exists chunk, ev = Data chunk) before ->
  exists cause : exn,
    (generatePDF rt d y (before ++ ErrorEvent e :: after)).2 = Rejected cause /\
    (forall calls, executor rt d y [] = (Ok tt, calls) -> cause = e) /\
    (forall (req : http_request) (w : world),
       method req = "POST" -> body req = Some d ->
       first_missing d required = None ->
       doc_y w = y -> doc_events w = before ++ ErrorEvent e :: after ->
       answer (handler rt req w)
       = Some {| status := 500;
                 sends := Json [("error", Str (message cause))] |} /\
       sent (handler rt req w) = [] /\
       logged (handler rt req w) = [cause]).
Proof.
  intros Hdata.
  assert (Hgen : exists cause,
            (generatePDF rt d y (before ++ ErrorEvent e :: after)).2
            = Rejected cause /\
            (forall calls, executor rt d y [] = (Ok tt, calls) -> cause = e)).
  { unfold generatePDF.
    destruct (executor rt d y []) as [[[]|thrown] calls].
    - exists e. split; [now apply listen_error|reflexivity].
    - exists thrown. split; [reflexivity|]. intros calls' H. discriminate H. }
  destruct Hgen as (cause & Hrej & Hcause).
  exists cause. split; [exact Hrej|]. split; [exact Hcause|].
  intros req w Hm Hb Hvalid Hy Hev.
  unfold handler, try_block. rewrite Hm, Hb, Hvalid, Hy, Hev.
  destruct (generatePDF rt d y (before ++ ErrorEvent e :: after))
    as [calls outcome].
  cbn [snd] in Hrej. subst outcome. cbn. auto.
Qed.

Lemma engine_error_rejects_witness :
  exists cause : exn,
    (generatePDF Demo.runtime no_ref (of_Z 250)
       ([Data [Byte.x25]] ++ ErrorEvent (Exn "Error" "stream failure") :: [])).2
    = Rejected cause.
Proof.
  destruct (engine_error_rejects Demo.runtime no_ref (of_Z 250)
              [Data [Byte.x25]] [] (Exn "Error" "stream failure"))
    as (cause & Hrej & _).
  - repeat constructor. now exists [Byte.x25].
  - exists cause. exact Hrej.
Defined.

(** C6 as stated fails: the reason of the rejection is the error of the
    stream as it came, named "Error"; no [RenderError] is made around it,
    and it is this error that the handler logs and whose message it sends. *)
Lemma engine_error_is_not_wrapped :
  (generatePDF Demo.runtime no_ref (doc_y stream_fails)
     (doc_events stream_fails)).2
  = Rejected (Exn "Error" "stream failure") /\
  name (Exn "Error" "stream failure") <> "RenderError" /\
  logged (handler Demo.runtime (post no_ref) stream_fails)
  = [Exn "Error" "stream failure"] /\
  answer (handler Demo.runtime (post no_ref) stream_fails)
  = Some {| status := 500; sends := Json [("error", Str "stream failure")] |}.
Proof.
  split; [vm_compute; reflexivity|]. split; [discriminate|].
  split; vm_compute; reflexivity.
Qed.

(** ** Dispatch *)

(** What the handler does with each outcome of [send].  Once the document
    is rendered, exactly one message is handed to the mail channel, with the
    document as its one attachment, in base64.  When the promise of [send]
    is rejected, the handler logs the error and answers 500 with its
    message; when the promise is fulfilled, whatever the value, the answer
    is 200 with [success] and the reference and nothing else.  No answer
    carries the document. *)
Theorem dispatch_failure_is_failure (rt : Runtime) (req : http_request)
    (w : world) (d : gmap string value) (pdf : list Byte.byte) :
  method req = "POST" ->
  body req = Some d ->
  first_missing d required = None ->
  (generatePDF rt d (doc_y w) (doc_events w)).2 = Fulfilled pdf ->
  let mail := email_of rt d (base64 pdf) in
  sent (handler rt req w) = [mail] /\
  attachments mail
  = [ {| filename := "Wire_Transfer_" +:+ ToString rt (get d "ref") +:+ ".pdf";
         content := base64 pdf |} ] /\
  (forall err : exn,
     emails_send w mail = Rejected err ->
     answer (handler rt req w)
     = Some {| status := 500; sends := Json [("error", Str (message err))] |} /\
     logged (handler rt req w) = [err]) /\
  (forall x : string,
     emails_send w mail = Fulfilled x ->
     answer (handler rt req w)
     = Some {| status := 200;
               sends := Json [("success", Boolean true); ("ref", get d "ref")] |}) /\
  (emails_send w mail = Pending -> answer (handler rt req w) = None).
Proof.
  intros Hm Hb Hvalid Hpdf mail. subst mail.
  unfold handler, try_block. rewrite Hm, Hb, Hvalid.
  destruct (generatePDF rt d (doc_y w) (doc_events w)) as [calls outcome].
  cbn [snd] in Hpdf. subst outcome. cbn -[email_of base64].
  destruct (emails_send w (email_of rt d (base64 pdf))) as [x|err|] eqn:Hsend;
    cbn; repeat split; intros; congruence.
Qed.

Lemma dispatch_failure_is_failure_witness :
  answer (handler Demo.runtime (post no_ref) mail_down)
  = Some {| status := 500;
            sends := Json [("error", Str "connect ETIMEDOUT")] |}.
Proof.
  refine (proj1 (proj1 (proj2 (proj2
    (dispatch_failure_is_failure Demo.runtime (post no_ref) mail_down
       no_ref [Byte.x25; Byte.x50; Byte.x44; Byte.x46]
       eq_refl eq_refl _ _))) (Exn "Error" "connect ETIMEDOUT") eq_refl));
    vm_compute; reflexivity.
Defined.

(** C7: the claim fails on the code.  The letter is rendered and the mail
    service refuses the message, which the resend client reports in the
    value its promise is fulfilled with; the [catch] block, reached by a
    rejected promise only, is not entered, nothing is logged, and the
    handler answers 200 with [success: true]. *)
Lemma refused_mail_is_answered_200 :
  (generatePDF Demo.runtime no_ref (doc_y mail_refused)
     (doc_events mail_refused)).2
  = Fulfilled [Byte.x25; Byte.x50; Byte.x44; Byte.x46] /\
  (exists refusal,
     emails_send mail_refused (email_of Demo.runtime no_ref "JVBERg==")
     = Fulfilled refusal /\
     occurs_in "error: { statusCode: 403" refusal) /\
  answer (handler Demo.runtime (post no_ref) mail_refused)
  = Some {| status := 200;
            sends := Json [("success", Boolean true); ("ref", Undefined)] |} /\
  logged (handler Demo.runtime (post no_ref) mail_refused) = [].
Proof.
  split; [vm_compute; reflexivity|]. split.
  - eexists. split; [reflexivity|].
    exists "{ data: null, ",
      ", name: 'validation_error', message: 'The onix-cp.com domain is not verified.' } }".
    reflexivity.
  - split; vm_compute; reflexivity.
Qed.

(** The handler does not look at the value [send] is fulfilled with. *)
Lemma fulfilled_send_is_success (rt : Runtime) (d : gmap string value)
    (x y : string) (events : list doc_event) (cursor : number) :
  handler rt (post d)
    {| doc_y := cursor; doc_events := events;
       emails_send := fun _ => Fulfilled x |}
  = handler rt (post d)
      {| doc_y := cursor; doc_events := events;
         emails_send := fun _ => Fulfilled y |}.
Proof.
  unfold handler, try_block. cbn.
  destruct (first_missing d required); [reflexivity|].
  destruct (generatePDF rt d cursor events) as [calls [pdf|err|]]; reflexivity.
Qed.

(** C9, as amended: [ref] is not a required field; a posted record whose
    nine required fields are truthy and whose [ref] is absent passes the
    validation and is rendered, and when the rendering and the dispatch
    succeed, the subject of the message reads "undefined" for the
    reference, the attachment is named "Wire_Transfer_undefined.pdf" and the
    answer is 200 with [success] and an undefined [ref]. *)
Theorem absent_ref_prints_undefined (rt : Runtime) (req : http_request)
    (w : world) (d : gmap string value) :
  method req = "POST" ->
  body req = Some d ->
  Forall (fun k => ToBoolean (get d k) = true) required ->
  d !! "ref" = None ->
  ~ In "ref" required /\
  first_missing d required = None /\
  doc_calls (handler rt req w)
  = (generatePDF rt d (doc_y w) (doc_events w)).1 /\
  (forall (pdf : list Byte.byte) (x : string),
     (generatePDF rt d (doc_y w) (doc_events w)).2 = Fulfilled pdf ->
     emails_send w (email_of rt d (base64 pdf)) = Fulfilled x ->
     exists mail,
       sent (handler rt req w) = [mail] /\
       subject mail
       = "Wire Transfer Request undefined – " +:+
         ToString rt (get d "beneficiario") +:+ " – " +:+
         fmt rt (get d "amount") +:+ " " +:+ ToString rt (get d "currency") /\
       map filename (attachments mail) = ["Wire_Transfer_undefined.pdf"] /\
       answer (handler rt req w)
       = Some {| status := 200;
                 sends := Json [("success", Boolean true);
                                ("ref", Undefined)] |}).
Proof.
  intros Hm Hb Htruthy Href.
  pose proof (first_missing_None d required Htruthy) as Hvalid.
  assert (Hundef : get d "ref" = Undefined) by (unfold get; now rewrite Href).
  split; [cbn [In required]; intuition discriminate|].
  split; [exact Hvalid|].
  unfold handler, try_block. rewrite Hm, Hb, Hvalid.
  destruct (generatePDF rt d (doc_y w) (doc_events w)) as [calls outcome].
  cbn [fst snd]. split.
  - cbn -[email_of base64]. destruct outcome as [pdf|err|]; [|reflexivity..].
    cbn -[email_of base64].
    destruct (emails_send w (email_of rt d (base64 pdf))); reflexivity.
  - intros pdf x -> Hsend. cbn -[email_of base64]. rewrite Hsend.
    exists (email_of rt d (base64 pdf)). cbn -[base64 String.append].
    unfold email_subject. rewrite Hundef. repeat split.
Qed.

Lemma absent_ref_prints_undefined_witness :
  answer (handler Demo.runtime (post no_ref) fair_world)
  = Some {| status := 200;
            sends := Json [("success", Boolean true); ("ref", Undefined)] |}.
Proof.
  destruct (absent_ref_prints_undefined Demo.runtime (post no_ref)
              fair_world no_ref eq_refl eq_refl) as (_ & _ & _ & Hsuccess).
  - repeat constructor.
  - vm_compute. reflexivity.
  - destruct (Hsuccess [Byte.x25; Byte.x50; Byte.x44; Byte.x46] "{}")
      as (mail & _ & _ & _ & Hanswer);
      [vm_compute; reflexivity|reflexivity|exact Hanswer].
Defined.

(** C9 as stated fails: the nine required fields of [nine_fields] are truthy
    and its [ref] is absent, but [dirBanco] is absent too; splitting it
    throws, no message is sent and the answer is 500. *)
Lemma absent_ref_without_email :
  Forall (fun k => ToBoolean (get nine_fields k) = true) required /\
  nine_fields !! "ref" = None /\
  sent (handler Demo.runtime (post nine_fields) fair_world) = [] /\
  answer (handler Demo.runtime (post nine_fields) fair_world)
  = Some {| status := 500;
            sends := Json [("error", Str
              "Cannot read properties of undefined (reading 'split')")] |}.
Proof.
  split; [repeat constructor|]. repeat split; vm_compute; reflexivity.
Qed.

(** ** What a rendering depends on *)

Lemma executor_rendered_fields (rt : Runtime) (d1 d2 : gmap string value)
    (y : number) :
  (forall key, In key rendered_fields -> get d1 key = get d2 key) ->
  executor rt d1 y = executor rt d2 y.
Proof.
  intros H.
  assert (Hrows : rows rt d1 = rows rt d2).
  { unfold rows, importe_y_divisa, cuenta_del_beneficiario.
    rewrite !H by (cbn [In rendered_fields]; tauto). reflexivity. }
  unfold executor. rewrite Hrows.
  rewrite (H "date") by (cbn [In rendered_fields]; tauto). reflexivity.
Qed.

Lemma generatePDF_calls (rt : Runtime) (d : gmap string value) (y : number)
    (events events' : list doc_event) :
  (generatePDF rt d y events).1 = (generatePDF rt d y events').1.
Proof.
  unfold generatePDF. destruct (executor rt d y []) as [[[]|e] calls];
    reflexivity.
Qed.

(** C3, as amended: what [generatePDF] does is a function of the thirteen
    fields it reads, the date string among them, of the cursor pdfkit
    reports and of the events of the document stream, and of nothing else.
    Two requests that agree on these fields, and so one request rendered
    twice, make the same calls on the document whatever the stream emits,
    and give the same bytes whenever the stream emits the same chunks. *)
Theorem rendering_is_a_function_of_its_fields (rt : Runtime)
    (d1 d2 : gmap string value) (y : number) (events : list doc_event) :
  (forall key, In key rendered_fields -> get d1 key = get d2 key) ->
  generatePDF rt d1 y events = generatePDF rt d2 y events /\
  (forall events' : list doc_event,
     (generatePDF rt d1 y events).1 = (generatePDF rt d2 y events').1).
Proof.
  intros H.
  assert (Hsame : forall ev, generatePDF rt d1 y ev = generatePDF rt d2 y ev).
  { intros ev. unfold generatePDF.
    now rewrite (executor_rendered_fields rt d1 d2 y H). }
  split; [apply Hsame|].
  intros events'. rewrite Hsame. apply generatePDF_calls.
Qed.

Lemma rendering_is_a_function_of_its_fields_witness :
  generatePDF Demo.runtime no_ref (of_Z 250) (stamped "20250131120000")
  = generatePDF Demo.runtime (<["ref" := Str "WT-0001"]> no_ref)
      (of_Z 250) (stamped "20250131120000").
Proof.
  apply (rendering_is_a_function_of_its_fields Demo.runtime no_ref
           (<["ref" := Str "WT-0001"]> no_ref)).
  intros key Hin. unfold get. rewrite lookup_insert_ne; [reflexivity|].
  intros <-. cbn [In rendered_fields] in Hin. intuition discriminate.
Defined.

(** C3 as stated fails: the bytes are the chunks of the document stream, and
    the same request rendered at two different seconds gives two different
    documents. *)
Lemma same_request_different_bytes :
  (generatePDF Demo.runtime no_ref (of_Z 250) (stamped "20250131120000")).2
  <> (generatePDF Demo.runtime no_ref (of_Z 250) (stamped "20250131120001")).2.
Proof. vm_compute. intros H. discriminate H. Qed.

(** ** The amount *)

(** With a separator after every third digit the amount would read
    "1.234,50". *)
Lemma format_1234_5_always_grouped :
  Intl.format Intl.es_always_grouped 2 2 Demo.n1234_5 = "1.234,50".
Proof. vm_compute. reflexivity. Qed.




(** * Further properties of the code *)

(** ** The table in the trace *)

Lemma forEach_strings (table : list (string * string)) (cursor : number)
    (drawn : list call) :
  forEach row_body (map (fun row => (row.1, Str row.2)) table) cursor drawn
  = (Ok (paginate table cursor).2, drawn ++ (paginate table cursor).1).
Proof.
  revert cursor drawn.
  induction table as [|[label value] rest IH]; intros cursor drawn.
  - simpl. now rewrite app_nil_r.
  - cbn [map forEach fst snd paginate].
    change (mbind ?k ?m) with (bind m k).
    unfold bind at 1. rewrite row_body_string. unfold exceeds_bottom.
    replace (Z.max 28 (12 + 14 * Z.of_nat (length (split LF value))))
      with (rh value) by (unfold rh, lineCount, rowHeight, cellPad; lia).
    destruct (gt _ _); rewrite IH;
      destruct (paginate rest _) as [calls final]; cbn [fst snd];
      rewrite <- ?app_assoc; reflexivity.
Qed.

Lemma texts_app (a b : list call) : texts (a ++ b) = texts a ++ texts b.
Proof. unfold texts. apply flat_map_app. Qed.

Lemma rects_app (a b : list call) : rects (a ++ b) = (rects a + rects b)%nat.
Proof. unfold rects. now rewrite List.filter_app, length_app. Qed.

Lemma page_breaks_app (a b : list call) :
  page_breaks (a ++ b) = (page_breaks a + page_breaks b)%nat.
Proof. unfold page_breaks. now rewrite List.filter_app, length_app. Qed.

Lemma draw_cells_measures (label value : string) (y : number) (height : Z) :
  texts (draw_cells label value y height) = [Str label; Str value] /\
  rects (draw_cells label value y height) = 2%nat /\
  page_breaks (draw_cells label value y height) = 0%nat /\
  ~ In DocEnd (draw_cells label value y height).
Proof.
  repeat split. cbn [draw_cells In]. intuition discriminate.
Qed.

Lemma paginate_measures (table : list (string * string)) (cursor : number) :
  texts (paginate table cursor).1
  = flat_map (fun row => [Str row.1; Str row.2]) table /\
  rects (paginate table cursor).1 = (2 * length table)%nat /\
  (page_breaks (paginate table cursor).1 <= length table)%nat /\
  ~ In DocEnd (paginate table cursor).1.
Proof.
  revert cursor. induction table as [|[label value] rest IH]; intros cursor.
  - cbn. repeat split; auto.
  - cbn [paginate].
    set (height := Z.max 28 (12 + 14 * Z.of_nat (length (split LF value)))).
    destruct (exceeds_bottom cursor height).
    + destruct (IH (add (of_Z 72) (of_Z height))) as (Ht & Hr & Hp & Hd).
      destruct (paginate rest _) as [calls final]. cbn [fst snd] in *.
      destruct (draw_cells_measures label value (of_Z 72) height)
        as (Ht' & Hr' & Hp' & Hd').
      change (AddPage :: ?a ++ calls) with ([AddPage] ++ a ++ calls).
      rewrite !texts_app, !rects_app, !page_breaks_app, Ht, Hr, Ht', Hr', Hp'.
      change (rects [AddPage]) with 0%nat.
      change (page_breaks [AddPage]) with 1%nat.
      split; [reflexivity|]. split; [cbn [length]; lia|].
      split; [cbn [length]; lia|].
      rewrite !in_app_iff. intros [H|[H|H]]; [|exact (Hd' H)|exact (Hd H)].
      cbn in H. intuition discriminate.
    + destruct (IH (add cursor (of_Z height))) as (Ht & Hr & Hp & Hd).
      destruct (paginate rest _) as [calls final]. cbn [fst snd] in *.
      destruct (draw_cells_measures label value cursor height)
        as (Ht' & Hr' & Hp' & Hd').
      rewrite !texts_app, !rects_app, !page_breaks_app, Ht, Hr, Ht', Hr', Hp'.
      split; [reflexivity|]. split; [cbn [length]; lia|].
      split; [cbn [length]; lia|].
      rewrite !in_app_iff. intros [H|H]; [exact (Hd' H)|exact (Hd H)].
Qed.

(** X1: whatever the cursor and wherever the pages break, the loop writes
    the label and the value of every row once, in the order of the rows,
    draws two rectangles for each row and adds at most one page for each
    row. *)
Theorem rows_are_drawn_once_in_order (table : list (string * string))
    (cursor : number) (drawn : list call) :
  exists (calls : list call) (final : number),
    forEach row_body (map (fun row => (row.1, Str row.2)) table) cursor drawn
    = (Ok final, drawn ++ calls) /\
    texts calls = flat_map (fun row => [Str row.1; Str row.2]) table /\
    rects calls = (2 * length table)%nat /\
    (page_breaks calls <= length table)%nat.
Proof.
  exists (paginate table cursor).1, (paginate table cursor).2.
  destruct (paginate_measures table cursor) as (Ht & Hr & Hp & _).
  split; [apply forEach_strings|]. auto.
Qed.

(** ** The whole letter *)

Lemma forEach_throws (before : list (string * string)) (label : string)
    (v : value) (rest : list (string * value)) (cursor : number)
    (drawn : list call) :
  (forall s, v <> Str s) ->
  exists msg,
    forEach row_body
      (map (fun row => (row.1, Str row.2)) before ++ (label, v) :: rest)
      cursor drawn
    = (Throw (TypeError msg), drawn ++ (paginate before cursor).1).
Proof.
  intros Hv. revert cursor drawn.
  induction before as [|[l s] before IH]; intros cursor drawn.
  - cbn [map app forEach paginate fst snd].
    change (mbind ?k ?m) with (bind m k). unfold bind at 1.
    destruct (row_body_not_a_string label v cursor drawn Hv) as [msg ->].
    exists msg. now rewrite app_nil_r.
  - cbn [map app forEach fst snd paginate].
    change (mbind ?k ?m) with (bind m k).
    unfold bind at 1. rewrite row_body_string. unfold exceeds_bottom.
    replace (Z.max 28 (12 + 14 * Z.of_nat (length (split LF s))))
      with (rh s) by (unfold rh, lineCount, rowHeight, cellPad; lia).
    destruct (gt _ _).
    + destruct (IH (add (of_Z 72) (of_Z (rh s)))
                  (drawn ++ AddPage :: draw_cells l s (of_Z 72) (rh s)))
        as [msg ->].
      exists msg. destruct (paginate before _) as [calls final].
      cbn [fst snd]. rewrite <- ?app_assoc. reflexivity.
    + destruct (IH (add cursor (of_Z (rh s)))
                  (drawn ++ draw_cells l s cursor (rh s))) as [msg ->].
      exists msg. destruct (paginate before _) as [calls final].
      cbn [fst snd]. rewrite <- ?app_assoc. reflexivity.
Qed.

Lemma executor_run (rt : Runtime) (d : gmap string value) (y : number) :
  executor rt d y [] =
  match forEach row_body (rows rt d) y (heading d) with
  | (Ok final, calls) => (Ok tt, calls ++ closing final)
  | (Throw e, calls) => (Throw e, calls)
  end.
Proof.
  unfold executor. cbv [mbind mret M_bind M_ret bind ret emit]. cbn [app].
  change (forEach row_body (rows rt d) y _)
    with (forEach row_body (rows rt d) y (heading d)).
  destruct (forEach row_body (rows rt d) y (heading d)) as [[final|e] calls];
    [|reflexivity].
  unfold closing. rewrite <- ?app_assoc. reflexivity.
Qed.

Lemma executor_strings (rt : Runtime) (d : gmap string value) (y : number)
    (b a k : string) :
  get d "beneficiario" = Str b ->
  get d "dirBeneficiario" = Str a ->
  get d "dirBanco" = Str k ->
  executor rt d y [] =
  (Ok tt, heading d ++ (paginate (table rt d b a k) y).1
          ++ closing (paginate (table rt d b a k) y).2).
Proof.
  intros Hb Ha Hk.
  rewrite executor_run, (rows_of_strings rt d b a k Hb Ha Hk), forEach_strings.
  now rewrite <- app_assoc.
Qed.

Lemma executor_throws (rt : Runtime) (d : gmap string value) (y : number)
    (key : string) :
  In key raw_row_keys ->
  (forall s, get d key <> Str s) ->
  exists msg calls,
    executor rt d y [] = (Throw (TypeError msg), calls) /\
    ~ In DocEnd calls.
Proof.
  intros Hin Hkey.
  assert (Hnot : forall before label v rest,
            rows rt d
            = map (fun row => (row.1, Str row.2)) before ++ (label, v) :: rest ->
            (forall s, v <> Str s) ->
            exists msg calls,
              executor rt d y [] = (Throw (TypeError msg), calls) /\
              ~ In DocEnd calls).
  { intros before label v rest Hrows Hv. rewrite executor_run, Hrows.
    destruct (forEach_throws before label v rest y (heading d) Hv) as [msg ->].
    exists msg, (heading d ++ (paginate before y).1). split; [reflexivity|].
    rewrite in_app_iff. intros [H|H].
    - cbn in H. intuition discriminate.
    - now apply (paginate_measures before y). }
  destruct (get d "beneficiario") as [| |b0|n0|b] eqn:Hb;
    try (apply (Hnot [ ("Ordenante", "Verdi Square Asset Management SL");
                       ("Cuenta del ordenante", "ES63 0128 0892 5701 0005 3572");
                       ("Importe y divisa", importe_y_divisa rt d) ]
                 "Beneficiario" (get d "beneficiario")
                 [ ("Cuenta del beneficiario", Str (cuenta_del_beneficiario rt d));
                   ("Dirección completa del beneficiario", get d "dirBeneficiario");
                   ("Dirección completa del banco del beneficiario", get d "dirBanco") ]
                 eq_refl); rewrite Hb; discriminate).
  destruct (get d "dirBeneficiario") as [| |a0|n0|a] eqn:Ha;
    try (apply (Hnot [ ("Ordenante", "Verdi Square Asset Management SL");
                       ("Cuenta del ordenante", "ES63 0128 0892 5701 0005 3572");
                       ("Importe y divisa", importe_y_divisa rt d);
                       ("Beneficiario", b);
                       ("Cuenta del beneficiario", cuenta_del_beneficiario rt d) ]
                 "Dirección completa del beneficiario" (get d "dirBeneficiario")
                 [ ("Dirección completa del banco del beneficiario", get d "dirBanco") ]);
         [unfold rows; rewrite Hb; reflexivity|rewrite Ha; discriminate]).
  destruct (get d "dirBanco") as [| |k0|n0|k] eqn:Hk;
    try (apply (Hnot [ ("Ordenante", "Verdi Square Asset Management SL");
                       ("Cuenta del ordenante", "ES63 0128 0892 5701 0005 3572");
                       ("Importe y divisa", importe_y_divisa rt d);
                       ("Beneficiario", b);
                       ("Cuenta del beneficiario", cuenta_del_beneficiario rt d);
                       ("Dirección completa del beneficiario", a) ]
                 "Dirección completa del banco del beneficiario" (get d "dirBanco") []);
         [unfold rows; rewrite Hb, Ha; reflexivity|rewrite Hk; discriminate]).
  exfalso. destruct Hin as [<-|[<-|[<-|[]]]].
  - exact (Hkey b Hb).
  - exact (Hkey a Ha).
  - exact (Hkey k Hk).
Qed.

(** X2: when the beneficiary, its address and the address of its bank are
    strings, the executor does not throw, so that the promise settles as the
    document stream dictates; the calls on the document are those of the
    heading, of the seven rows paginated from the cursor pdfkit reports, and
    of the closing, in this order: fourteen rectangles, at most seven added
    pages, and [doc.end()] once, as the last call. *)
Theorem letter_is_heading_table_closing (rt : Runtime) (d : gmap string value)
    (y : number) (events : list doc_event) (b a k : string) :
  get d "beneficiario" = Str b ->
  get d "dirBeneficiario" = Str a ->
  get d "dirBanco" = Str k ->
  let rows_drawn := (paginate (table rt d b a k) y).1 in
  let final := (paginate (table rt d b a k) y).2 in
  generatePDF rt d y events
  = (heading d ++ rows_drawn ++ closing final, listen [] events) /\
  rects (generatePDF rt d y events).1 = 14%nat /\
  (page_breaks (generatePDF rt d y events).1 <= 7)%nat /\
  (exists before,
     (generatePDF rt d y events).1 = before ++ [DocEnd] /\
     ~ In DocEnd before).
Proof.
  intros Hb Ha Hk rows_drawn final.
  assert (Hgen : generatePDF rt d y events
                 = (heading d ++ rows_drawn ++ closing final, listen [] events)).
  { unfold generatePDF. now rewrite (executor_strings rt d y b a k Hb Ha Hk). }
  destruct (paginate_measures (table rt d b a k) y) as (_ & Hr & Hp & Hd).
  fold rows_drawn in Hr, Hp, Hd.
  rewrite Hgen. cbn [fst]. split; [reflexivity|].
  rewrite !rects_app, !page_breaks_app, Hr.
  split; [reflexivity|]. split.
  - change (page_breaks (heading d)) with 0%nat.
    change (page_breaks (closing final)) with 0%nat.
    cbn [length table] in Hp. lia.
  - exists (heading d ++ rows_drawn ++ removelast (closing final)).
    split; [rewrite <- !app_assoc; reflexivity|].
    rewrite !in_app_iff. intros [H|[H|H]]; [|exact (Hd H)|];
      cbn in H; intuition discriminate.
Qed.

Lemma letter_is_heading_table_closing_witness :
  rects (generatePDF Demo.runtime no_ref (of_Z 250) (stamped "20250131120000")).1
  = 14%nat.
Proof.
  refine (proj1 (proj2 (letter_is_heading_table_closing Demo.runtime no_ref
            (of_Z 250) (stamped "20250131120000") "Acme Trading Inc"
            "1 Main Street, Panama" "2 Bank Street, Panama" _ _ _)));
    vm_compute; reflexivity.
Defined.

(** X3: the validation does not look at the type of a field, and the
    address of the bank is not validated at all: when the beneficiary, its
    address or the address of its bank is not a string (a number, a boolean,
    null, or absent), [value.split] throws in the loop, the promise of
    [generatePDF] is rejected with a [TypeError] whatever the stream emits,
    [doc.end()] is never called, and the handler answers 500 with the
    message of the error and hands nothing to the mail channel. *)
Theorem row_value_not_a_string_is_a_500 (rt : Runtime) (d : gmap string value)
    (key : string) :
  In key raw_row_keys ->
  (forall s, get d key <> Str s) ->
  (forall (y : number) (events : list doc_event),
     exists msg calls,
       generatePDF rt d y events = (calls, Rejected (TypeError msg)) /\
       ~ In DocEnd calls) /\
  (forall (req : http_request) (w : world),
     method req = "POST" -> body req = Some d ->
     first_missing d required = None ->
     exists msg,
       answer (handler rt req w)
       = Some {| status := 500; sends := Json [("error", Str msg)] |} /\
       logged (handler rt req w) = [TypeError msg] /\
       sent (handler rt req w) = []).
Proof.
  intros Hin Hkey.
  assert (Hgen : forall y events, exists msg calls,
            generatePDF rt d y events = (calls, Rejected (TypeError msg)) /\
            ~ In DocEnd calls).
  { intros y events.
    destruct (executor_throws rt d y key Hin Hkey) as (msg & calls & Hex & Hend).
    exists msg, calls. split; [|exact Hend].
    unfold generatePDF. now rewrite Hex. }
  split; [exact Hgen|].
  intros req w Hm Hbody Hvalid.
  destruct (Hgen (doc_y w) (doc_events w)) as (msg & calls & Hrej & _).
  exists msg. unfold handler, try_block.
  rewrite Hm, Hbody, Hvalid, Hrej. cbn. auto.
Qed.

Lemma row_value_not_a_string_is_a_500_witness :
  exists msg,
    answer (handler Demo.runtime (post numeric_beneficiary) fair_world)
    = Some {| status := 500; sends := Json [("error", Str msg)] |}.
Proof.
  destruct (row_value_not_a_string_is_a_500 Demo.runtime numeric_beneficiary
              "beneficiario") as [_ Hhandler].
  - cbn. tauto.
  - intros s. vm_compute. discriminate.
  - destruct (Hhandler (post numeric_beneficiary) fair_world eq_refl eq_refl)
      as (msg & Hanswer & _); [vm_compute; reflexivity|].
    exists msg. exact Hanswer.
Defined.

(** ** The document stream *)

Lemma listen_data (chunks : list (list Byte.byte)) (events : list doc_event) :
  Forall (fun ev => exists chunk, ev = Data chunk) events ->
  listen chunks events = Pending.
Proof.
  intros Hdata. revert chunks.
  induction Hdata as [|ev events [chunk ->] _ IH]; intros chunks;
    [reflexivity|apply IH].
Qed.

(** X4: the handler sets no time limit of its own.  When the letter is
    drawn and the document stream emits chunks but neither [end] nor
    [error], the promise of [generatePDF] stays pending: the handler never
    answers, logs nothing and hands nothing to the mail channel. *)
Theorem silent_stream_never_answers (rt : Runtime) (req : http_request)
    (w : world) (d : gmap string value) (b a k : string) :
  method req = "POST" -> body req = Some d ->
  first_missing d required = None ->
  get d "beneficiario" = Str b ->
  get d "dirBeneficiario" = Str a ->
  get d "dirBanco" = Str k ->
  Forall (fun ev => exists chunk, ev = Data chunk) (doc_events w) ->
  (generatePDF rt d (doc_y w) (doc_events w)).2 = Pending /\
  answer (handler rt req w) = None /\
  sent (handler rt req w) = [] /\
  logged (handler rt req w) = [].
Proof.
  intros Hm Hbody Hvalid Hb Ha Hk Hdata.
  unfold handler, try_block, generatePDF.
  rewrite Hm, Hbody, Hvalid, (executor_strings rt d (doc_y w) b a k Hb Ha Hk).
  rewrite (listen_data [] (doc_events w) Hdata). cbn. auto.
Qed.

Lemma silent_stream_never_answers_witness :
  answer (handler Demo.runtime (post no_ref) silent_stream) = None.
Proof.
  refine (proj1 (proj2 (silent_stream_never_answers Demo.runtime (post no_ref)
            silent_stream no_ref "Acme Trading Inc" "1 Main Street, Panama"
            "2 Bank Street, Panama" eq_refl eq_refl _ _ _ _ _)));
    try (vm_compute; reflexivity).
  repeat constructor; eexists; reflexivity.
Defined.

(** X5: the attachment is the document up to the first [end].  When the
    letter is drawn and the stream emits some chunks and then [end], the
    promise is fulfilled with these chunks concatenated in the order of
    emission, whatever the stream emits afterwards (more chunks, an error),
    and the one message handed to the mail channel carries exactly these
    bytes, in base64. *)
Theorem attachment_is_the_chunks_before_end (rt : Runtime) (req : http_request)
    (w : world) (d : gmap string value) (b a k : string)
    (emitted : list (list Byte.byte)) (after : list doc_event) :
  method req = "POST" -> body req = Some d ->
  first_missing d required = None ->
  get d "beneficiario" = Str b ->
  get d "dirBeneficiario" = Str a ->
  get d "dirBanco" = Str k ->
  doc_events w = map Data emitted ++ EndEvent :: after ->
  (generatePDF rt d (doc_y w) (doc_events w)).2 = Fulfilled (concat emitted) /\
  sent (handler rt req w) = [email_of rt d (base64 (concat emitted))] /\
  map content (attachments (email_of rt d (base64 (concat emitted))))
  = [base64 (concat emitted)].
Proof.
  intros Hm Hbody Hvalid Hb Ha Hk Hev.
  unfold handler, try_block, generatePDF.
  rewrite Hm, Hbody, Hvalid, (executor_strings rt d (doc_y w) b a k Hb Ha Hk).
  rewrite Hev, listen_end. cbn -[email_of base64 concat].
  split; [reflexivity|]. split; [|reflexivity].
  destruct (emails_send w _); cbn -[email_of base64 concat]; reflexivity.
Qed.

Lemma attachment_is_the_chunks_before_end_witness :
  map (fun mail => map content (attachments mail))
    (sent (handler Demo.runtime (post no_ref) late_error))
  = [["JVBERg=="]].
Proof.
  rewrite (proj1 (proj2 (attachment_is_the_chunks_before_end Demo.runtime
             (post no_ref) late_error no_ref "Acme Trading Inc"
             "1 Main Street, Panama" "2 Bank Street, Panama"
             [[Byte.x25; Byte.x50]; [Byte.x44; Byte.x46]]
             [ErrorEvent (Exn "Error" "write after end"); Data [Byte.x0a]]
             eq_refl eq_refl eq_refl eq_refl eq_refl eq_refl eq_refl))).
  reflexivity.
Defined.

(** ** The handler on every path *)

(** X6: only a POST is looked at.  For every other method, whatever the body
    and whatever the world, nothing is validated, drawn, sent or logged: the
    answer is 200 with an empty body for OPTIONS and 405 "Method not
    allowed" for anything else, the comparison being exact (a lower-case
    "post" is refused). *)
Theorem other_methods_touch_nothing (rt : Runtime) (req : http_request)
    (w : world) :
  method req <> "POST" ->
  handler rt req w
  = {| headers := cors; doc_calls := []; sent := []; logged := [];
       answer := Some (if String.eqb (method req) "OPTIONS"
                       then {| status := 200; sends := EndReply |}
                       else {| status := 405;
                               sends := Json [("error", Str "Method not allowed")] |}) |}
  /\ handler rt {| method := "post"; body := body req |} w
     = {| headers := cors; doc_calls := []; sent := []; logged := [];
          answer := Some {| status := 405;
            sends := Json [("error", Str "Method not allowed")] |} |}.
Proof.
  intros Hm. split; [|reflexivity]. unfold handler.
  destruct (String.eqb (method req) "OPTIONS"); [reflexivity|].
  destruct (String.eqb_spec (method req) "POST") as [Heq|_];
    [contradiction|reflexivity].
Qed.

Lemma other_methods_touch_nothing_witness :
  doc_calls (handler Demo.runtime {| method := "GET"; body := Some no_ref |}
               fair_world) = [].
Proof.
  rewrite (proj1 (other_methods_touch_nothing Demo.runtime
             {| method := "GET"; body := Some no_ref |} fair_world
             ltac:(discriminate))).
  reflexivity.
Defined.

(** X7: on every path the three CORS headers are set, at most one message
    is handed to the mail channel, and the error log agrees with the answer:
    an answer of 500 comes with exactly one logged error, whose message is
    the body of the answer, and every other outcome (200, 400, 405, or no
    answer at all) logs nothing. *)
Theorem every_500_is_logged (rt : Runtime) (req : http_request) (w : world) :
  headers (handler rt req w) = cors /\
  (length (sent (handler rt req w)) <= 1)%nat /\
  match answer (handler rt req w) with
  | Some r =>
      (status r = 500 /\
       exists err, logged (handler rt req w) = [err] /\
                   sends r = Json [("error", Str (message err))])
      \/ ((status r = 200 \/ status r = 400 \/ status r = 405) /\
          logged (handler rt req w) = [])
  | None => logged (handler rt req w) = []
  end.
Proof.
  unfold handler.
  destruct (String.eqb (method req) "OPTIONS");
    [cbn; repeat split; auto|].
  destruct (String.eqb (method req) "POST");
    [|cbn; repeat split; auto 6].
  cbn [negb]. unfold try_block.
  destruct (body req) as [d|]; [|cbn; repeat split; eauto 6].
  destruct (first_missing d required); [cbn; repeat split; auto 6|].
  destruct (generatePDF rt d (doc_y w) (doc_events w)) as [calls [pdf|err|]];
    [|cbn; repeat split; eauto 6..].
  cbn -[email_of base64].
  destruct (emails_send w _) as [x|err|]; cbn; repeat split; eauto 6.
Qed.

(** X8: a message reaches the mail channel only as the last step of a POST
    whose record passed the validation and whose letter was rendered to the
    end: it is then the only message, it goes from the fixed sender to the
    fixed recipient, never to an address taken from the request, and its
    one attachment is the rendered document in base64. *)
Theorem mail_only_after_rendering (rt : Runtime) (req : http_request)
    (w : world) (mail : email) :
  In mail (sent (handler rt req w)) ->
  method req = "POST" /\
  exists (d : gmap string value) (pdf : list Byte.byte),
    body req = Some d /\
    first_missing d required = None /\
    (generatePDF rt d (doc_y w) (doc_events w)).2 = Fulfilled pdf /\
    mail = email_of rt d (base64 pdf) /\
    sent (handler rt req w) = [mail] /\
    from mail = "Wire Requests <noreply@onix-cp.com>" /\
    to mail = "mk@onix-cp.com" /\
    map content (attachments mail) = [base64 pdf].
Proof.
  unfold handler.
  destruct (String.eqb (method req) "OPTIONS"); [intros []|].
  destruct (String.eqb_spec (method req) "POST") as [Hm|_]; [|intros []].
  cbn [negb]. unfold try_block. intros Hin. split; [exact Hm|].
  destruct (body req) as [d|]; [|destruct Hin].
  destruct (first_missing d required) eqn:Hvalid; [destruct Hin|].
  destruct (generatePDF rt d (doc_y w) (doc_events w))
    as [calls [pdf|err|]] eqn:Hgen; [|destruct Hin..].
  exists d, pdf. cbn -[email_of base64] in Hin. cbn [snd].
  assert (Hmail : mail = email_of rt d (base64 pdf)).
  { destruct (emails_send w _); cbn -[email_of base64] in Hin;
      destruct Hin as [<-|[]]; reflexivity. }
  subst mail.
  split; [reflexivity|]. split; [exact Hvalid|].
  split; [rewrite Hgen; reflexivity|].
  split; [reflexivity|]. split; [|repeat split].
  cbn -[email_of base64]. destruct (emails_send w _); reflexivity.
Qed.

Lemma mail_only_after_rendering_witness :
  exists mail, In mail (sent (handler Demo.runtime (post no_ref) fair_world))
               /\ to mail = "mk@onix-cp.com".
Proof.
  exists (email_of Demo.runtime no_ref "JVBERg==").
  assert (Hin : In (email_of Demo.runtime no_ref "JVBERg==")
                  (sent (handler Demo.runtime (post no_ref) fair_world)))
    by (vm_compute; left; reflexivity).
  split; [exact Hin|].
  destruct (mail_only_after_rendering Demo.runtime (post no_ref) fair_world
              (email_of Demo.runtime no_ref "JVBERg==") Hin)
    as (_ & d & pdf & _ & _ & _ & _ & _ & _ & Hto & _).
  exact Hto.
Defined.

(** X9: success is acknowledged only after the mail channel has accepted the
    message.  An answer of 200 with a JSON body means that the record passed
    the validation, the letter was rendered, exactly one message was handed
    over and the promise of [send] was fulfilled; the body is then
    [success: true] and the [ref] of the request as it came, and nothing
    else. *)
Theorem success_only_after_send (rt : Runtime) (req : http_request)
    (w : world) (fields : list (string * value)) :
  answer (handler rt req w) = Some {| status := 200; sends := Json fields |} ->
  exists (d : gmap string value) (pdf : list Byte.byte) (x : string),
    body req = Some d /\
    first_missing d required = None /\
    (generatePDF rt d (doc_y w) (doc_events w)).2 = Fulfilled pdf /\
    emails_send w (email_of rt d (base64 pdf)) = Fulfilled x /\
    sent (handler rt req w) = [email_of rt d (base64 pdf)] /\
    fields = [("success", Boolean true); ("ref", get d "ref")].
Proof.
  unfold handler.
  destruct (String.eqb (method req) "OPTIONS"); [discriminate|].
  destruct (String.eqb (method req) "POST"); [|discriminate].
  cbn [negb]. unfold try_block.
  destruct (body req) as [d|]; [|discriminate].
  destruct (first_missing d required) eqn:Hvalid; [discriminate|].
  destruct (generatePDF rt d (doc_y w) (doc_events w))
    as [calls [pdf|err|]] eqn:Hgen; [|discriminate..].
  cbn -[email_of base64].
  destruct (emails_send w _) as [x|err|] eqn:Hsend; [|discriminate..].
  cbn -[email_of base64]. intros [= <-].
  exists d, pdf, x. rewrite Hgen. repeat split; assumption.
Qed.

Lemma success_only_after_send_witness :
  exists d, body (post no_ref) = Some d /\ first_missing d required = None.
Proof.
  destruct (success_only_after_send Demo.runtime (post no_ref) fair_world
              [("success", Boolean true); ("ref", Undefined)])
    as (d & pdf & x & Hbody & Hvalid & _).
  - vm_compute. reflexivity.
  - exists d. auto.
Defined.

(** X10: a POST without a body is not answered 400: reading the first
    required field of [undefined] throws, and the handler logs the
    [TypeError] and answers 500, having drawn and sent nothing. *)
Theorem absent_body_is_a_500 (rt : Runtime) (req : http_request) (w : world) :
  method req = "POST" -> body req = None ->
  exists msg,
    handler rt req w
    = {| headers := cors; doc_calls := []; sent := [];
         logged := [TypeError msg];
         answer := Some {| status := 500;
                           sends := Json [("error", Str msg)] |} |}.
Proof.
  intros Hm Hbody. unfold handler, try_block. rewrite Hm, Hbody. cbn.
  eexists. reflexivity.
Qed.

Lemma absent_body_is_a_500_witness :
  exists msg,
    answer (handler Demo.runtime {| method := "POST"; body := None |} fair_world)
    = Some {| status := 500; sends := Json [("error", Str msg)] |}.
Proof.
  destruct (absent_body_is_a_500 Demo.runtime
              {| method := "POST"; body := None |} fair_world eq_refl eq_refl)
    as [msg ->].
  exists msg. reflexivity.
Defined.

(** ** The validation as a whole *)

Lemma first_missing_falsy (d : gmap string value) (fields : list string)
    (field : string) :
  first_missing d fields = Some field ->
  In field fields /\ ToBoolean (get d field) = false.
Proof.
  induction fields as [|f rest IH]; [discriminate|].
  simpl. destruct (ToBoolean (get d f)) eqn:Hf; simpl.
  - intros H. destruct (IH H). auto.
  - intros [= <-]. auto.
Qed.

(** X11: a posted record is answered 400 exactly when one of the nine
    required fields is falsy; nothing else about the record, and nothing the
    world does, leads to a 400.  The amount being checked first, a falsy
    amount, the number zero included, is always reported as "Missing field:
    amount", whatever the other fields. *)
Theorem bad_request_iff_falsy_field (rt : Runtime) (req : http_request)
    (w : world) (d : gmap string value) :
  method req = "POST" -> body req = Some d ->
  ((exists reply400,
      answer (handler rt req w) = Some {| status := 400; sends := reply400 |})
   <-> Exists (fun field => ToBoolean (get d field) = false) required) /\
  (ToBoolean (get d "amount") = false ->
   answer (handler rt req w)
   = Some {| status := 400;
             sends := Json [("error", Str "Missing field: amount")] |}) /\
  ToBoolean (Num (of_Z 0)) = false.
Proof.
  intros Hm Hbody. split; [split|split; [|reflexivity]].
  - intros [reply400 H]. revert H. unfold handler, try_block.
    rewrite Hm, Hbody. cbn [String.eqb Ascii.eqb Bool.eqb negb].
    destruct (first_missing d required) as [field|] eqn:Hfm.
    + intros _. apply Exists_exists. exists field.
      destruct (first_missing_falsy d required field Hfm) as [Hin Hf].
      split; [now apply list_elem_of_In|exact Hf].
    + destruct (generatePDF rt d (doc_y w) (doc_events w))
        as [calls [pdf|err|]]; [|discriminate..].
      cbn -[email_of base64].
      destruct (emails_send w _); discriminate.
  - intros Hex.
    destruct (first_missing_Some d required Hex)
      as (before & field & after & _ & _ & _ & Hfm).
    eexists. unfold handler, try_block. rewrite Hm, Hbody, Hfm. reflexivity.
  - intros Hfalsy. unfold handler, try_block. rewrite Hm, Hbody.
    cbn [first_missing required]. rewrite Hfalsy. reflexivity.
Qed.

Lemma bad_request_iff_falsy_field_witness :
  answer (handler Demo.runtime (post zero_amount) fair_world)
  = Some {| status := 400;
            sends := Json [("error", Str "Missing field: amount")] |}.
Proof.
  apply (proj1 (proj2 (bad_request_iff_falsy_field Demo.runtime
           (post zero_amount) fair_world zero_amount eq_refl eq_refl))).
  vm_compute. reflexivity.
Defined.

(** ** The height of the account row *)

Lemma occurrences_join (xs : list string) :
  xs <> [] ->
  occurrences LF (join nl xs)
  = (list_sum (map (occurrences LF) xs) + (length xs - 1))%nat.
Proof.
  induction xs as [|x [|y rest] IH]; intros Hne; [contradiction| |].
  - simpl. lia.
  - change (join nl (x :: y :: rest))
      with (x +:+ String.String LF (join nl (y :: rest))).
    rewrite occurrences_append.
    change (occurrences LF (String.String LF (join nl (y :: rest))))
      with (S (occurrences LF (join nl (y :: rest)))).
    rewrite IH by discriminate. unfold list_sum. cbn [map fold_right length]. lia.
Qed.

Lemma rh_cuenta (rt : Runtime) (d : gmap string value) :
  rh (cuenta_del_beneficiario rt d)
  = 110 + 14 * Z.of_nat (list_sum
      (map (fun field : string * string =>
              occurrences LF (ToString rt (get d field.2))) account_fields)).
Proof.
  assert (H : occurrences LF (cuenta_del_beneficiario rt d)
              = (6 + list_sum
                   (map (fun field : string * string =>
                      occurrences LF (ToString rt (get d field.2)))
                      account_fields))%nat).
  { rewrite cuenta_is_join, occurrences_join by discriminate.
    unfold account_lines, account_fields.
    unfold list_sum. cbn [map fold_right length fst snd].
    rewrite !occurrences_append.
    change (occurrences LF "Banco Intermediario: ") with O.
    change (occurrences LF "Ciudad: ") with O.
    change (occurrences LF "Swift Code: ") with O.
    change (occurrences LF "ABA: ") with O.
    change (occurrences LF "Banco Beneficiario: ") with O.
    change (occurrences LF "Swift code: ") with O.
    change (occurrences LF "Beneficiario Final: ") with O.
    lia. }
  rewrite rh_lines, H. lia.
Qed.

(** X12: the "Cuenta del beneficiario" row is one of the rows of every
    letter, and the loop draws it, rectangles and cursor, with a height of
    110 points, that of seven lines, plus 14 points for every line feed that
    the text of one of its seven sub-fields contains: never less than 110,
    whatever the request holds, absent fields included. *)
Theorem account_row_height (rt : Runtime) (d : gmap string value)
    (y : number) (calls : list call) :
  let value := cuenta_del_beneficiario rt d in
  let height :=
    110 + 14 * Z.of_nat (list_sum
      (map (fun field : string * string =>
              occurrences LF (ToString rt (get d field.2))) account_fields)) in
  In ("Cuenta del beneficiario", Str value) (rows rt d) /\
  row_body y ("Cuenta del beneficiario", Str value) calls
  = (if gt (add y (of_Z height)) (of_Z 750)
     then (Ok (add (of_Z 72) (of_Z height)),
           calls ++ AddPage ::
           draw_cells "Cuenta del beneficiario" value (of_Z 72) height)
     else (Ok (add y (of_Z height)),
           calls ++ draw_cells "Cuenta del beneficiario" value y height)) /\
  (forall top : number,
     firstn 4 (draw_cells "Cuenta del beneficiario" value top height)
     = [ Rect (of_Z 72) top (of_Z 200) (of_Z height); Stroke;
         Rect (of_Z 272) top (of_Z 251) (of_Z height); Stroke ]) /\
  110 <= height.
Proof.
  intros value height.
  split; [unfold rows; cbn [In]; tauto|].
  split; [rewrite row_body_string; unfold value; rewrite rh_cuenta; reflexivity|].
  split; [reflexivity|]. unfold height. lia.
Qed.

(** ** The HTML summary *)

Lemma occurs_here (s t : string) : occurs_in s (s +:+ t).
Proof. now exists "", t. Qed.

Lemma occurs_later (s a t : string) : occurs_in s t -> occurs_in s (a +:+ t).
Proof.
  intros (pre & post & ->). exists (a +:+ pre), post.
  now rewrite append_assoc.
Qed.

(** X13: the HTML summary does not escape what it prints.  Each of the nine
    fields printed with a plain interpolation, when it is a string, occurs in
    the body of the message character for character, markup included. *)
Theorem summary_is_not_escaped (rt : Runtime) (d : gmap string value)
    (key s : string) :
  In key summary_keys ->
  get d key = Str s ->
  occurs_in s (email_html rt d).
Proof.
  intros Hin Hs. unfold email_html. cbn [String.concat].
  destruct Hin as [<-|[<-|[<-|[<-|[<-|[<-|[<-|[<-|[<-|[]]]]]]]]]];
    rewrite Hs; cbn [ToString];
    repeat first [apply occurs_here | apply occurs_later].
Qed.

Lemma summary_is_not_escaped_witness :
  occurs_in "<b>Acme</b>"
    (email_html Demo.runtime (<["beneficiario" := Str "<b>Acme</b>"]> no_ref)).
Proof.
  apply (summary_is_not_escaped Demo.runtime
           (<["beneficiario" := Str "<b>Acme</b>"]> no_ref) "beneficiario").
  - cbn. tauto.
  - vm_compute. reflexivity.
Defined.

(** ** When the document is touched *)

(** X14: a call on the pdfkit document is made only for a POST whose record
    passed the validation: a request refused with 400, 405 or for want of a
    body never creates a document.  The calls of a run are then those of
    [generatePDF] on that record. *)
Theorem document_only_after_validation (rt : Runtime) (req : http_request)
    (w : world) (c : call) :
  In c (doc_calls (handler rt req w)) ->
  method req = "POST" /\
  exists d : gmap string value,
    body req = Some d /\
    Forall (fun field => ToBoolean (get d field) = true) required /\
    doc_calls (handler rt req w)
    = (generatePDF rt d (doc_y w) (doc_events w)).1.
Proof.
  unfold handler.
  destruct (String.eqb (method req) "OPTIONS"); [intros []|].
  destruct (String.eqb_spec (method req) "POST") as [Hm|_]; [|intros []].
  cbn [negb]. unfold try_block. intros Hin. split; [exact Hm|].
  destruct (body req) as [d|]; [|destruct Hin].
  destruct (first_missing d required) as [field|] eqn:Hvalid; [destruct Hin|].
  exists d. split; [reflexivity|]. split.
  - apply Forall_forall. intros k Hk.
    destruct (ToBoolean (get d k)) eqn:Hfalsy; [reflexivity|].
    assert (Hex : Exists (fun field => ToBoolean (get d field) = false) required)
      by (apply Exists_exists; eauto).
    destruct (first_missing_Some d required Hex)
      as (_ & field & _ & _ & _ & _ & Hfm). congruence.
  - destruct (generatePDF rt d (doc_y w) (doc_events w))
      as [calls [pdf|err|]]; [|reflexivity..].
    cbn -[email_of base64]. destruct (emails_send w _); reflexivity.
Qed.

Lemma document_only_after_validation_witness :
  exists d, body (post no_ref) = Some d /\
            Forall (fun field => ToBoolean (get d field) = true) required.
Proof.
  destruct (document_only_after_validation Demo.runtime (post no_ref)
              fair_world (NewPDFDocument "A4" (of_Z 72)))
    as (_ & d & Hbody & Hvalid & _).
  - vm_compute. left. reflexivity.
  - exists d. auto.
Defined.
